(** * Start-up of the relay API command (cmd/api.go)

    The [api] command reads its flags into package-level variables, picks the
    genesis fork version, checks the beacon node, connects to Redis, loads the
    signing key, builds the relay service and serves.  Every failure goes
    through logrus' [Fatal], which logs and then leaves the process with
    status 1.

    The command is embedded as a computation in a small process monad: a run
    is the list of calls it made to its collaborators, in order, together with
    the way it ended.  The collaborators (beacon client, Redis, BLS, the relay
    service) answer through a [World] record. *)

From Stdlib Require Import String Ascii List ZArith Bool Lia.
Import ListNotations.

Local Open Scope string_scope.
Local Open Scope Z_scope.

(** ** Go values *)

(** A Go [error] is represented by its message; [option error] is an error
    value that may be [nil]. *)
Definition error := string.

Definition byte := Z.

Inductive result (A : Type) : Type :=
| Ok (a : A)
| Err (e : error).
Arguments Ok {A} a.
Arguments Err {A} e.

(** [int64] arithmetic: values are kept in [-2^63, 2^63) and a product that
    leaves the range wraps around modulo [2^64]. *)
Module int64.
Definition min : Z := - 2 ^ 63.
Definition max : Z := 2 ^ 63 - 1.
Definition in_range (z : Z) : bool := (min <=? z) && (z <=? max).
Definition wrap (z : Z) : Z := (z + 2 ^ 63) mod 2 ^ 64 - 2 ^ 63.
Definition mul (a b : Z) : Z := wrap (a * b).
End int64.

(** The part of package [time] the command uses: a [Duration] is an [int64]
    count of nanoseconds. *)
Module time.
Definition Duration := Z.
Definition Nanosecond : Duration := 1.
Definition Microsecond : Duration := 1000 * Nanosecond.
Definition Millisecond : Duration := 1000 * Microsecond.
(** [Duration.Milliseconds]: integer division truncating toward zero. *)
Definition Milliseconds (d : Duration) : Z := Z.quot d 1000000.
End time.

(** ** hexutil.Decode

    [hexutil.Decode] belongs to go-ethereum, a dependency of the repository.
    It is a pure function and is written out here after the library: the
    input must be non-empty, start with [0x] or [0X], and continue with an
    even number of hexadecimal digits (either case). *)
Module hexutil.

Inductive decError : Type :=
| ErrEmptyString
| ErrSyntax
| ErrMissingPrefix
| ErrOddLength.

Definition Error (e : decError) : error :=
  match e with
  | ErrEmptyString => "empty hex string"
  | ErrSyntax => "invalid hex string"
  | ErrMissingPrefix => "hex string without 0x prefix"
  | ErrOddLength => "hex string of odd length"
  end.

(** encoding/hex's table of digit values. *)
Definition fromHexChar (c : ascii) : option byte :=
  let n := Z.of_nat (nat_of_ascii c) in
  if (48 <=? n) && (n <=? 57) then Some (n - 48)
  else if (97 <=? n) && (n <=? 102) then Some (n - 97 + 10)
  else if (65 <=? n) && (n <=? 70) then Some (n - 65 + 10)
  else None.

(** encoding/hex's decoding loop, with its errors already mapped the way
    hexutil's [mapError] does: an invalid byte is [ErrSyntax], a dangling
    digit is [ErrOddLength]; an invalid byte anywhere in a pair is reported
    before the odd length. *)
Fixpoint hexDecode (src : list ascii) : list byte + decError :=
  match src with
  | [] => inl []
  | [p] =>
      match fromHexChar p with
      | None => inr ErrSyntax
      | Some _ => inr ErrOddLength
      end
  | p :: q :: rest =>
      match fromHexChar p, fromHexChar q with
      | None, _ => inr ErrSyntax
      | _, None => inr ErrSyntax
      | Some a, Some b =>
          match hexDecode rest with
          | inl bs => inl (Z.lor (Z.shiftl a 4) b :: bs)
          | inr e => inr e
          end
      end
  end.

Definition has0xPrefix (input : list ascii) : bool :=
  match input with
  | c0 :: c1 :: _ =>
      Ascii.eqb c0 "0"%char && (Ascii.eqb c1 "x"%char || Ascii.eqb c1 "X"%char)
  | _ => false
  end.

Definition Decode (input : string) : result (list byte) :=
  let cs := list_ascii_of_string input in
  if (length cs =? 0)%nat then Err (Error ErrEmptyString)
  else if negb (has0xPrefix cs) then Err (Error ErrMissingPrefix)
  else
    match hexDecode (skipn 2 cs) with
    | inl b => Ok b
    | inr e => Err (Error e)
    end.

End hexutil.

(** ** Handles and options *)

Inductive Level : Type := InfoLevel | FatalLevel.

(** A logrus entry: the fields attached with [WithField]. *)
Record Entry : Type := { entry_fields : list (string * string) }.

Record ProdBeaconClient : Type := { bc_log : Entry; bc_uri : string }.
Record RedisCache : Type := { redis_uri : string }.
Record ProdProposerDatastore : Type := { ds_redis : RedisCache }.
Record blsSecretKey : Type := { sk_bytes : list byte }.

Record RelayAPIOpts : Type := {
  Log : Entry;
  ListenAddr : string;
  BeaconClient : ProdBeaconClient;
  Datastore : ProdProposerDatastore;
  GenesisForkVersionHex : string;
  PprofAPI : bool;
  GetHeaderWaitTime : time.Duration;
  SecretKey : blsSecretKey
}.

Record RelayAPI : Type := { api_opts : RelayAPIOpts }.

(** ** The process monad *)

(** What a run did to the outside, one entry per call, in program order. *)
Inductive Event : Type :=
| LogSetupCall (json : bool) (level : string)
| LogLine (lvl : Level) (msg : string) (err : option error)
| NewProdBeaconClientCall (uri : string)
| SyncStatusCall (c : ProdBeaconClient)
| NewRedisCacheCall (uri : string)
| NewProdProposerDatastoreCall (r : RedisCache)
| DecodeCall (input : string)
| SecretKeyFromBytesCall (b : list byte)
| NewRelayAPICall (opts : RelayAPIOpts)
| StartServerCall (srv : RelayAPI).

(** How a computation ends: it hands back a value, the process exits with a
    status code, or a call never returns. *)
Inductive Status (A : Type) : Type :=
| Returned (a : A)
| Exited (code : Z)
| Blocked.
Arguments Returned {A} a.
Arguments Exited {A} code.
Arguments Blocked {A}.

Definition Proc (A : Type) : Type := (list Event * Status A)%type.

Definition trace {A} (p : Proc A) : list Event := fst p.
Definition status {A} (p : Proc A) : Status A := snd p.

Definition ret {A} (a : A) : Proc A := ([], Returned a).

Definition bind {A B} (m : Proc A) (f : A -> Proc B) : Proc B :=
  match m with
  | (t, Returned a) =>
      match f a with
      | (t', s) => ((t ++ t')%list, s)
      end
  | (t, Exited c) => (t, Exited c)
  | (t, Blocked) => (t, Blocked)
  end.

Definition emit (e : Event) : Proc unit := ([e], Returned tt).
Definition exit {A} (code : Z) : Proc A := ([], Exited code).
Definition block {A} : Proc A := ([], Blocked).

Declare Scope proc_scope.
Delimit Scope proc_scope with proc.
Notation "x <- m ;; k" := (bind m (fun x => k))
  (at level 100, m at next level, right associativity) : proc_scope.
Notation "m ;; k" := (bind m (fun _ => k))
  (at level 100, right associativity) : proc_scope.
Local Open Scope proc_scope.

(** ** logrus *)

Module logrus.
Definition WithField (k v : string) : Entry := {| entry_fields := [(k, v)] |}.

Definition Infof (msg : string) : Proc unit := emit (LogLine InfoLevel msg None).

(** [Fatal] writes the entry and then calls [Exit(1)], whatever was
    logged; [WithError(err)] attaches the error to the entry. *)
Definition Fatal {A} (msg : string) (err : option error) : Proc A :=
  emit (LogLine FatalLevel msg err) ;; exit 1.

(** [fmt.Sprint] of an error value, as [Fatal(err)] formats it. *)
Definition Sprint (err : option error) : string :=
  match err with
  | Some e => e
  | None => "<nil>"
  end.
End logrus.

(** ** The collaborators *)

(** Everything the command gets from outside its own file.  The constants and
    [LogSetup] are declared in the repository's other packages ([cmd],
    [common]) and are taken as they come; the remaining fields are the
    answers of the external calls.  [LogSetup_returns] tells whether
    [common.LogSetup] comes back or ends the process; [StartServer_ret] is
    [None] when the serve call never returns. *)
Record World : Type := {
  Version : string;
  GenesisForkVersionMainnet : string;
  GenesisForkVersionKiln : string;
  GenesisForkVersionRopsten : string;
  GenesisForkVersionSepolia : string;
  LogSetup_returns : bool -> string -> bool;
  SyncStatus_err : ProdBeaconClient -> option error;
  NewRedisCache_err : string -> option error;
  SecretKeyFromBytes_err : list byte -> option error;
  NewRelayAPI_err : RelayAPIOpts -> option error;
  StartServer_ret : RelayAPI -> option (option error)
}.

Module common.
Definition LogSetup (w : World) (json : bool) (level : string) : Proc unit :=
  emit (LogSetupCall json level) ;;
  if LogSetup_returns w json level then ret tt else exit 1.
End common.

Module beaconclient.
Definition NewProdBeaconClient (log : Entry) (uri : string) : Proc ProdBeaconClient :=
  emit (NewProdBeaconClientCall uri) ;;
  ret {| bc_log := log; bc_uri := uri |}.

Definition SyncStatus (w : World) (c : ProdBeaconClient) : Proc (option error) :=
  emit (SyncStatusCall c) ;;
  ret (SyncStatus_err w c).
End beaconclient.

Module datastore.
Definition NewRedisCache (w : World) (uri : string) : Proc (result RedisCache) :=
  emit (NewRedisCacheCall uri) ;;
  ret (match NewRedisCache_err w uri with
       | None => Ok {| redis_uri := uri |}
       | Some e => Err e
       end).

Definition NewProdProposerDatastore (r : RedisCache) : Proc ProdProposerDatastore :=
  emit (NewProdProposerDatastoreCall r) ;;
  ret {| ds_redis := r |}.
End datastore.

Module bls.
Definition SecretKeyFromBytes (w : World) (b : list byte) : Proc (result blsSecretKey) :=
  emit (SecretKeyFromBytesCall b) ;;
  ret (match SecretKeyFromBytes_err w b with
       | None => Ok {| sk_bytes := b |}
       | Some e => Err e
       end).
End bls.

Module api.
Definition NewRelayAPI (w : World) (opts : RelayAPIOpts) : Proc (result RelayAPI) :=
  emit (NewRelayAPICall opts) ;;
  ret (match NewRelayAPI_err w opts with
       | None => Ok {| api_opts := opts |}
       | Some e => Err e
       end).

Definition StartServer (w : World) (srv : RelayAPI) : Proc (option error) :=
  emit (StartServerCall srv) ;;
  match StartServer_ret w srv with
  | Some r => ret r
  | None => block
  end.
End api.

Definition hexutil_Decode (input : string) : Proc (result (list byte)) :=
  emit (DecodeCall input) ;;
  ret (hexutil.Decode input).

(** ** Flags *)

(** The package-level variables the flags are bound to. *)
Record Flags : Type := {
  listenAddr : string;
  beaconNodeURI : string;
  redisURI : string;
  logJSON : bool;
  logLevel : string;
  useGenesisForkVersionMainnet : bool;
  useGenesisForkVersionKiln : bool;
  useGenesisForkVersionRopsten : bool;
  useGenesisForkVersionSepolia : bool;
  useCustomGenesisForkVersion : string;
  apiPprof : bool;
  secretKey : string;
  getHeaderWaitTimeMs : Z
}.

(** The process environment, as [os.LookupEnv] sees it. *)
Definition Env : Type := string -> option string.

Definition Getenv (env : Env) (key : string) : string :=
  match env key with
  | Some v => v
  | None => ""
  end.

(** Modelled from the spec: [common.GetEnv] is defined in the repository's
    [common] package, which is not among the sources; the value falls back
    from the environment variable to the hard-coded default. *)
Definition GetEnv (env : Env) (key : string) (defaultValue : string) : string :=
  match env key with
  | Some v => v
  | None => defaultValue
  end.

Definition defaultListenAddr : string := "localhost:9062".
Definition defaultBeaconURI (env : Env) : string := GetEnv env "BEACON_URI" "".
Definition defaultredisURI (env : Env) : string := GetEnv env "REDIS_URI" "localhost:6379".
Definition defaultLogJSON (env : Env) : bool := negb (Getenv env "LOG_JSON" =? "")%string.
Definition defaultLogLevel (env : Env) : string := GetEnv env "LOG_LEVEL" "info".
Definition defaultGenesisForkVersion (env : Env) : string := Getenv env "GENESIS_FORK_VERSION".

(** The command line after pflag has read it: for each flag, [Some v] when
    the flag occurs (with its last value [v]), [None] when it does not. *)
Record CmdLine : Type := {
  arg_listen_addr : option string;
  arg_beacon_uri : option string;
  arg_redis_uri : option string;
  arg_pprof : option bool;
  arg_getheader_wait_ms : option Z;
  arg_secret_key : option string;
  arg_json : option bool;
  arg_loglevel : option string;
  arg_mainnet : option bool;
  arg_kiln : option bool;
  arg_ropsten : option bool;
  arg_sepolia : option bool;
  arg_genesis_fork_version : option string
}.

Definition flagValue {A} (arg : option A) (dflt : A) : A :=
  match arg with
  | Some v => v
  | None => dflt
  end.

(** pflag marks a flag [Changed] when it occurs on the command line. *)
Definition Changed {A} (arg : option A) : bool :=
  match arg with
  | Some _ => true
  | None => false
  end.

(** [init]: every variable gets the flag's value, or the registered default
    when the flag does not occur. *)
Definition init (env : Env) (a : CmdLine) : Flags := {|
  listenAddr := flagValue (arg_listen_addr a) defaultListenAddr;
  beaconNodeURI := flagValue (arg_beacon_uri a) (defaultBeaconURI env);
  redisURI := flagValue (arg_redis_uri a) (defaultredisURI env);
  apiPprof := flagValue (arg_pprof a) false;
  getHeaderWaitTimeMs := flagValue (arg_getheader_wait_ms a) 500;
  secretKey := flagValue (arg_secret_key a) "";
  logJSON := flagValue (arg_json a) (defaultLogJSON env);
  logLevel := flagValue (arg_loglevel a) (defaultLogLevel env);
  useGenesisForkVersionMainnet := flagValue (arg_mainnet a) false;
  useGenesisForkVersionKiln := flagValue (arg_kiln a) false;
  useGenesisForkVersionRopsten := flagValue (arg_ropsten a) false;
  useGenesisForkVersionSepolia := flagValue (arg_sepolia a) false;
  useCustomGenesisForkVersion :=
    flagValue (arg_genesis_fork_version a) (defaultGenesisForkVersion env)
|}.

Definition countTrue (l : list bool) : nat := length (filter (fun b => b) l).

(** The flags named in [MarkFlagsMutuallyExclusive] that occur on the
    command line. *)
Definition mutuallyExclusiveSet (a : CmdLine) : nat :=
  countTrue [Changed (arg_mainnet a); Changed (arg_kiln a); Changed (arg_ropsten a);
             Changed (arg_sepolia a); Changed (arg_genesis_fork_version a)].

(** cobra validates a mutually exclusive group on the [Changed] marks: at
    most one flag of the group may occur, defaults are not counted. *)
Definition ValidateFlagGroups (a : CmdLine) : bool := (mutuallyExclusiveSet a <=? 1)%nat.

(** [Int64Var]: a value outside [int64] is a parse error. *)
Definition ParseFlags (a : CmdLine) : bool :=
  match arg_getheader_wait_ms a with
  | Some n => int64.in_range n
  | None => true
  end.

(** ** The command *)

Definition msgNoGenesisForkVersion : string :=
  "Please specify a genesis fork version (eg. -mainnet or -kiln or -ropsten or -genesis-fork-version flags)".

(** The block that sets [genesisForkVersionHex]. *)
Definition setGenesisForkVersion (w : World) (g : Flags) : Proc string :=
  if negb (useCustomGenesisForkVersion g =? "")%string then
    ret (useCustomGenesisForkVersion g)
  else if useGenesisForkVersionMainnet g then
    ret (GenesisForkVersionMainnet w)
  else if useGenesisForkVersionKiln g then
    ret (GenesisForkVersionKiln w)
  else if useGenesisForkVersionRopsten g then
    ret (GenesisForkVersionRopsten w)
  else if useGenesisForkVersionSepolia g then
    ret (GenesisForkVersionSepolia w)
  else
    logrus.Fatal msgNoGenesisForkVersion None.

(** [if err != nil { log.WithError(err).Fatal(msg) }] *)
Definition fatalIfErr (err : option error) (msg : string) : Proc unit :=
  match err with
  | Some e => logrus.Fatal msg (Some e)
  | None => ret tt
  end.

(** [v, err := f(); if err != nil { log.WithError(err).Fatal(msg) }] *)
Definition orFatal {A} (r : result A) (msg : string) : Proc A :=
  match r with
  | Ok a => ret a
  | Err e => logrus.Fatal msg (Some e)
  end.

Definition Run (w : World) (g : Flags) : Proc unit :=
  common.LogSetup w (logJSON g) (logLevel g) ;;
  let log := logrus.WithField "module" "cmd/api" in
  logrus.Infof ("boost-relay " ++ Version w) ;;
  (* Set genesis fork version *)
  genesisForkVersionHex <- setGenesisForkVersion w g ;;
  logrus.Infof ("Using genesis fork version: " ++ genesisForkVersionHex) ;;
  (* Connect to beacon client and ensure it's synced *)
  logrus.Infof ("Using beacon endpoint: " ++ beaconNodeURI g) ;;
  beaconClient <- beaconclient.NewProdBeaconClient log (beaconNodeURI g) ;;
  err <- beaconclient.SyncStatus w beaconClient ;;
  fatalIfErr err "Beacon node is syncing" ;;
  (* Connect to Redis and setup the datastore *)
  r <- datastore.NewRedisCache w (redisURI g) ;;
  redis <- orFatal r ("Failed to connect to Redis at " ++ redisURI g) ;;
  logrus.Infof ("Connected to Redis at " ++ redisURI g) ;;
  ds <- datastore.NewProdProposerDatastore redis ;;
  (* Decode the private key *)
  r <- hexutil_Decode (secretKey g) ;;
  envSkBytes <- orFatal r "incorrect secret key provided" ;;
  r <- bls.SecretKeyFromBytes w envSkBytes ;;
  sk <- orFatal r "incorrect builder API secret key provided" ;;
  let opts := {|
    Log := log;
    ListenAddr := listenAddr g;
    BeaconClient := beaconClient;
    Datastore := ds;
    GenesisForkVersionHex := genesisForkVersionHex;
    PprofAPI := apiPprof g;
    GetHeaderWaitTime := int64.mul (getHeaderWaitTimeMs g) time.Millisecond;
    SecretKey := sk
  |} in
  (* Create the relay service *)
  r <- api.NewRelayAPI w opts ;;
  srv <- orFatal r "failed to create service" ;;
  (* Start the server *)
  logrus.Infof ("Webserver starting on " ++ listenAddr g ++ " ...") ;;
  err <- api.StartServer w srv ;;
  logrus.Fatal (logrus.Sprint err) None.

(** ** Start-up as a whole *)

(** cobra parses and validates the command line and only then calls [Run]. *)
Inductive Startup : Type :=
| Rejected
| Started (p : Proc unit).

Definition Execute (w : World) (env : Env) (a : CmdLine) : Startup :=
  if negb (ParseFlags a) then Rejected
  else if negb (ValidateFlagGroups a) then Rejected
  else Started (Run w (init env a)).

(** ** Command lines with one more flag given *)

Definition withSecretKey (s : string) (a : CmdLine) : CmdLine := {|
  arg_listen_addr := arg_listen_addr a; arg_beacon_uri := arg_beacon_uri a;
  arg_redis_uri := arg_redis_uri a; arg_pprof := arg_pprof a;
  arg_getheader_wait_ms := arg_getheader_wait_ms a; arg_secret_key := Some s;
  arg_json := arg_json a; arg_loglevel := arg_loglevel a;
  arg_mainnet := arg_mainnet a; arg_kiln := arg_kiln a;
  arg_ropsten := arg_ropsten a; arg_sepolia := arg_sepolia a;
  arg_genesis_fork_version := arg_genesis_fork_version a
|}.

Definition withMainnet (a : CmdLine) : CmdLine := {|
  arg_listen_addr := arg_listen_addr a; arg_beacon_uri := arg_beacon_uri a;
  arg_redis_uri := arg_redis_uri a; arg_pprof := arg_pprof a;
  arg_getheader_wait_ms := arg_getheader_wait_ms a; arg_secret_key := arg_secret_key a;
  arg_json := arg_json a; arg_loglevel := arg_loglevel a;
  arg_mainnet := Some true; arg_kiln := arg_kiln a;
  arg_ropsten := arg_ropsten a; arg_sepolia := arg_sepolia a;
  arg_genesis_fork_version := arg_genesis_fork_version a
|}.

Definition withKiln (a : CmdLine) : CmdLine := {|
  arg_listen_addr := arg_listen_addr a; arg_beacon_uri := arg_beacon_uri a;
  arg_redis_uri := arg_redis_uri a; arg_pprof := arg_pprof a;
  arg_getheader_wait_ms := arg_getheader_wait_ms a; arg_secret_key := arg_secret_key a;
  arg_json := arg_json a; arg_loglevel := arg_loglevel a;
  arg_mainnet := arg_mainnet a; arg_kiln := Some true;
  arg_ropsten := arg_ropsten a; arg_sepolia := arg_sepolia a;
  arg_genesis_fork_version := arg_genesis_fork_version a
|}.

Definition withGenesisForkVersion (v : string) (a : CmdLine) : CmdLine := {|
  arg_listen_addr := arg_listen_addr a; arg_beacon_uri := arg_beacon_uri a;
  arg_redis_uri := arg_redis_uri a; arg_pprof := arg_pprof a;
  arg_getheader_wait_ms := arg_getheader_wait_ms a; arg_secret_key := arg_secret_key a;
  arg_json := arg_json a; arg_loglevel := arg_loglevel a;
  arg_mainnet := arg_mainnet a; arg_kiln := arg_kiln a;
  arg_ropsten := arg_ropsten a; arg_sepolia := arg_sepolia a;
  arg_genesis_fork_version := Some v
|}.

Definition withWaitMs (n : Z) (a : CmdLine) : CmdLine := {|
  arg_listen_addr := arg_listen_addr a; arg_beacon_uri := arg_beacon_uri a;
  arg_redis_uri := arg_redis_uri a; arg_pprof := arg_pprof a;
  arg_getheader_wait_ms := Some n; arg_secret_key := arg_secret_key a;
  arg_json := arg_json a; arg_loglevel := arg_loglevel a;
  arg_mainnet := arg_mainnet a; arg_kiln := arg_kiln a;
  arg_ropsten := arg_ropsten a; arg_sepolia := arg_sepolia a;
  arg_genesis_fork_version := arg_genesis_fork_version a
|}.

(** ** Sample worlds and inputs *)

Module Sample.

(** No variable is set. *)
Definition emptyEnv : Env := fun _ => None.

(** Only [GENESIS_FORK_VERSION] is set. *)
Definition envCustom (v : string) : Env :=
  fun k => if (k =? "GENESIS_FORK_VERSION")%string then Some v else None.

Definition noArgs : CmdLine := {|
  arg_listen_addr := None; arg_beacon_uri := None; arg_redis_uri := None;
  arg_pprof := None; arg_getheader_wait_ms := None; arg_secret_key := None;
  arg_json := None; arg_loglevel := None;
  arg_mainnet := None; arg_kiln := None; arg_ropsten := None; arg_sepolia := None;
  arg_genesis_fork_version := None
|}.

Definition validKey : string :=
  "0x2e0834786285daccd064ca17f1654f67b4aef298acbb82cef9ec422fb4975622".

Definition validKeyBytes : list byte :=
  Eval vm_compute in
    match hexutil.Decode validKey with
    | Ok b => b
    | Err _ => []
    end.

(** Every collaborator answers without error; the constants are the ones
    the flags' help texts quote; the server, once started, keeps serving
    or comes back with [ret]. *)
Definition healthy (ret : option (option error)) : World := {|
  Version := "dev";
  GenesisForkVersionMainnet := "0x00000000";
  GenesisForkVersionKiln := "0x70000069";
  GenesisForkVersionRopsten := "0x80000069";
  GenesisForkVersionSepolia := "0x90000069";
  LogSetup_returns := fun _ _ => true;
  SyncStatus_err := fun _ => None;
  NewRedisCache_err := fun _ => None;
  SecretKeyFromBytes_err := fun _ => None;
  NewRelayAPI_err := fun _ => None;
  StartServer_ret := fun _ => ret
|}.

(** The beacon node reports that it is still syncing. *)
Definition syncing : World := {|
  Version := "dev";
  GenesisForkVersionMainnet := "0x00000000";
  GenesisForkVersionKiln := "0x70000069";
  GenesisForkVersionRopsten := "0x80000069";
  GenesisForkVersionSepolia := "0x90000069";
  LogSetup_returns := fun _ _ => true;
  SyncStatus_err := fun _ => Some "beacon node is syncing";
  NewRedisCache_err := fun _ => None;
  SecretKeyFromBytes_err := fun _ => None;
  NewRelayAPI_err := fun _ => None;
  StartServer_ret := fun _ => None
|}.

(** BLS accepts exactly the 32-byte strings. *)
Definition strictKeys : World := {|
  Version := "dev";
  GenesisForkVersionMainnet := "0x00000000";
  GenesisForkVersionKiln := "0x70000069";
  GenesisForkVersionRopsten := "0x80000069";
  GenesisForkVersionSepolia := "0x90000069";
  LogSetup_returns := fun _ _ => true;
  SyncStatus_err := fun _ => None;
  NewRedisCache_err := fun _ => None;
  SecretKeyFromBytes_err :=
    fun b => if (length b =? 32)%nat then None else Some "invalid secret key length";
  NewRelayAPI_err := fun _ => None;
  StartServer_ret := fun _ => None
|}.

(** Mainnet on the command line while [GENESIS_FORK_VERSION] is set. *)
Definition envOverride : Env := envCustom "0x12345678".
Definition mainnetArgs : CmdLine := withMainnet noArgs.

(** A wait of 9223372036855 ms, one more than fits into a [Duration]. *)
Definition longWaitArgs : CmdLine :=
  withWaitMs 9223372036855 (withSecretKey validKey (withMainnet noArgs)).

End Sample.

(** ** Observations on runs *)

(** Logging is the only thing a run may do without touching a collaborator. *)
Definition isLogging (e : Event) : bool :=
  match e with
  | LogSetupCall _ _ | LogLine _ _ _ => true
  | _ => false
  end.

Definition isSyncStatus (e : Event) : bool :=
  match e with SyncStatusCall _ => true | _ => false end.

Definition isNewRedisCache (e : Event) : bool :=
  match e with NewRedisCacheCall _ => true | _ => false end.

Definition isSecretKeyFromBytes (e : Event) : bool :=
  match e with SecretKeyFromBytesCall _ => true | _ => false end.

Definition isNewRelayAPI (e : Event) : bool :=
  match e with NewRelayAPICall _ => true | _ => false end.

Definition isStartServer (e : Event) : bool :=
  match e with StartServerCall _ => true | _ => false end.

(** Number of events of a kind in a trace. *)
Definition calls (kind : Event -> bool) (t : list Event) : nat :=
  length (filter kind t).

(** No collaborator was contacted: the trace holds log entries only. *)
Definition onlyLogging (t : list Event) : bool := forallb isLogging t.

(** The run stopped through [Fatal]. *)
Definition fatal {A} (p : Proc A) : Prop := status p = Exited 1.

(** The trace of the run ends with the events [l]. *)
Definition endsWith {A} (p : Proc A) (l : list Event) : Prop :=
  exists pre, trace p = (pre ++ l)%list.

(** [a] occurs in the trace and [b] occurs later. *)
Definition before (a b : Event) (t : list Event) : Prop :=
  exists t1 t2 t3, t = (t1 ++ a :: t2 ++ b :: t3)%list.

(** The sources of a genesis fork version that are switched on in the bound
    variables. *)
Definition activeSources (g : Flags) : nat :=
  countTrue [negb (useCustomGenesisForkVersion g =? "")%string;
             useGenesisForkVersionMainnet g; useGenesisForkVersionKiln g;
             useGenesisForkVersionRopsten g; useGenesisForkVersionSepolia g].

Definition namedNetwork (g : Flags) : bool :=
  useGenesisForkVersionMainnet g || useGenesisForkVersionKiln g ||
  useGenesisForkVersionRopsten g || useGenesisForkVersionSepolia g.

(** Start-up failed, and nothing but logging happened on the way. *)
Definition failsBeforeIO (s : Startup) : Prop :=
  match s with
  | Rejected => True
  | Started p => fatal p /\ onlyLogging (trace p) = true
  end.

(** ** The shape of a run

    The trace of a run, stage by stage, as far as the run gets. *)
Section Stages.
Variables (w : World) (g : Flags).

Definition theLog : Entry := logrus.WithField "module" "cmd/api".

Definition theBeaconClient : ProdBeaconClient :=
  {| bc_log := theLog; bc_uri := beaconNodeURI g |}.

Definition theRedis : RedisCache := {| redis_uri := redisURI g |}.

Definition theOpts (v : string) (b : list byte) : RelayAPIOpts := {|
  Log := theLog;
  ListenAddr := listenAddr g;
  BeaconClient := theBeaconClient;
  Datastore := {| ds_redis := theRedis |};
  GenesisForkVersionHex := v;
  PprofAPI := apiPprof g;
  GetHeaderWaitTime := int64.mul (getHeaderWaitTimeMs g) time.Millisecond;
  SecretKey := {| sk_bytes := b |}
|}.

Definition theService (v : string) (b : list byte) : RelayAPI :=
  {| api_opts := theOpts v b |}.

Definition tLogSetup : list Event :=
  [LogSetupCall (logJSON g) (logLevel g)].

Definition tBanner : list Event :=
  (tLogSetup ++ [LogLine InfoLevel ("boost-relay " ++ Version w) None])%list.

Definition tBeacon (v : string) : list Event :=
  (tBanner ++
   [LogLine InfoLevel ("Using genesis fork version: " ++ v) None;
    LogLine InfoLevel ("Using beacon endpoint: " ++ beaconNodeURI g) None;
    NewProdBeaconClientCall (beaconNodeURI g);
    SyncStatusCall theBeaconClient])%list.

Definition tRedis (v : string) : list Event :=
  (tBeacon v ++ [NewRedisCacheCall (redisURI g)])%list.

Definition tDecode (v : string) : list Event :=
  (tRedis v ++
   [LogLine InfoLevel ("Connected to Redis at " ++ redisURI g) None;
    NewProdProposerDatastoreCall theRedis;
    DecodeCall (secretKey g)])%list.

Definition tKey (v : string) (b : list byte) : list Event :=
  (tDecode v ++ [SecretKeyFromBytesCall b])%list.

Definition tConstruct (v : string) (b : list byte) : list Event :=
  (tKey v b ++ [NewRelayAPICall (theOpts v b)])%list.

Definition tServe (v : string) (b : list byte) : list Event :=
  (tConstruct v b ++
   [LogLine InfoLevel ("Webserver starting on " ++ listenAddr g ++ " ...") None;
    StartServerCall (theService v b)])%list.

(** What has gone well when a stage is entered. *)
Definition identityResolved (v : string) : Prop :=
  LogSetup_returns w (logJSON g) (logLevel g) = true /\
  setGenesisForkVersion w g = ([], Returned v).

Definition beaconSynced (v : string) : Prop :=
  identityResolved v /\ SyncStatus_err w theBeaconClient = None.

Definition redisConnected (v : string) : Prop :=
  beaconSynced v /\ NewRedisCache_err w (redisURI g) = None.

Definition keyDecoded (v : string) (b : list byte) : Prop :=
  redisConnected v /\ hexutil.Decode (secretKey g) = Ok b.

Definition keyLoaded (v : string) (b : list byte) : Prop :=
  keyDecoded v b /\ SecretKeyFromBytes_err w b = None.

Definition serviceBuilt (v : string) (b : list byte) : Prop :=
  keyLoaded v b /\ NewRelayAPI_err w (theOpts v b) = None.

Definition fatalLine (msg : string) (e : error) : list Event :=
  [LogLine FatalLevel msg (Some e)].

(** Every way a run can go: one case per point where it can stop. *)
Inductive RunShape : Proc unit -> Prop :=
| StopLogSetup :
    LogSetup_returns w (logJSON g) (logLevel g) = false ->
    RunShape (tLogSetup, Exited 1)
| StopIdentity :
    LogSetup_returns w (logJSON g) (logLevel g) = true ->
    activeSources g = 0%nat ->
    RunShape ((tBanner ++ [LogLine FatalLevel msgNoGenesisForkVersion None])%list,
              Exited 1)
| StopBeacon v e :
    identityResolved v ->
    SyncStatus_err w theBeaconClient = Some e ->
    RunShape ((tBeacon v ++ fatalLine "Beacon node is syncing" e)%list, Exited 1)
| StopRedis v e :
    beaconSynced v ->
    NewRedisCache_err w (redisURI g) = Some e ->
    RunShape ((tRedis v ++
               fatalLine ("Failed to connect to Redis at " ++ redisURI g) e)%list,
              Exited 1)
| StopDecode v e :
    redisConnected v ->
    hexutil.Decode (secretKey g) = Err e ->
    RunShape ((tDecode v ++ fatalLine "incorrect secret key provided" e)%list,
              Exited 1)
| StopKey v b e :
    keyDecoded v b ->
    SecretKeyFromBytes_err w b = Some e ->
    RunShape ((tKey v b ++
               fatalLine "incorrect builder API secret key provided" e)%list,
              Exited 1)
| StopConstruct v b e :
    keyLoaded v b ->
    NewRelayAPI_err w (theOpts v b) = Some e ->
    RunShape ((tConstruct v b ++ fatalLine "failed to create service" e)%list,
              Exited 1)
| KeepsServing v b :
    serviceBuilt v b ->
    StartServer_ret w (theService v b) = None ->
    RunShape (tServe v b, Blocked)
| StopServe v b r :
    serviceBuilt v b ->
    StartServer_ret w (theService v b) = Some r ->
    RunShape ((tServe v b ++ [LogLine FatalLevel (logrus.Sprint r) None])%list,
              Exited 1).

End Stages.

(** ** Further observations and scenarios *)

Definition isNewProdProposerDatastore (e : Event) : bool :=
  match e with NewProdProposerDatastoreCall _ => true | _ => false end.

Definition isDecode (e : Event) : bool :=
  match e with DecodeCall _ => true | _ => false end.

Definition isFatalLine (e : Event) : bool :=
  match e with LogLine FatalLevel _ _ => true | _ => false end.

(** The named-network variables that are switched on. *)
Definition namedSources (g : Flags) : nat :=
  countTrue [useGenesisForkVersionMainnet g; useGenesisForkVersionKiln g;
             useGenesisForkVersionRopsten g; useGenesisForkVersionSepolia g].

(** A hexadecimal digit, in either case. *)
Definition isHexDigit (c : ascii) : bool :=
  match hexutil.fromHexChar c with
  | Some _ => true
  | None => false
  end.

Definition isByte (z : Z) : Prop := 0 <= z < 256.

Definition withBeaconURI (u : string) (a : CmdLine) : CmdLine := {|
  arg_listen_addr := arg_listen_addr a; arg_beacon_uri := Some u;
  arg_redis_uri := arg_redis_uri a; arg_pprof := arg_pprof a;
  arg_getheader_wait_ms := arg_getheader_wait_ms a; arg_secret_key := arg_secret_key a;
  arg_json := arg_json a; arg_loglevel := arg_loglevel a;
  arg_mainnet := arg_mainnet a; arg_kiln := arg_kiln a;
  arg_ropsten := arg_ropsten a; arg_sepolia := arg_sepolia a;
  arg_genesis_fork_version := arg_genesis_fork_version a
|}.

Definition withRedisURI (u : string) (a : CmdLine) : CmdLine := {|
  arg_listen_addr := arg_listen_addr a; arg_beacon_uri := arg_beacon_uri a;
  arg_redis_uri := Some u; arg_pprof := arg_pprof a;
  arg_getheader_wait_ms := arg_getheader_wait_ms a; arg_secret_key := arg_secret_key a;
  arg_json := arg_json a; arg_loglevel := arg_loglevel a;
  arg_mainnet := arg_mainnet a; arg_kiln := arg_kiln a;
  arg_ropsten := arg_ropsten a; arg_sepolia := arg_sepolia a;
  arg_genesis_fork_version := arg_genesis_fork_version a
|}.

(** Two settings of the variables agree on everything a run reads before it
    loads the key: logging, the sources of the genesis fork version and the
    two endpoints.  They may differ in the secret key, the listen address,
    the pprof switch and the wait. *)
Definition agreeUpToRedis (g g' : Flags) : Prop :=
  logJSON g = logJSON g' /\
  logLevel g = logLevel g' /\
  useCustomGenesisForkVersion g = useCustomGenesisForkVersion g' /\
  useGenesisForkVersionMainnet g = useGenesisForkVersionMainnet g' /\
  useGenesisForkVersionKiln g = useGenesisForkVersionKiln g' /\
  useGenesisForkVersionRopsten g = useGenesisForkVersionRopsten g' /\
  useGenesisForkVersionSepolia g = useGenesisForkVersionSepolia g' /\
  beaconNodeURI g = beaconNodeURI g' /\
  redisURI g = redisURI g'.

Module Scenario.

(** Redis cannot be reached. *)
Definition redisDown : World := {|
  Version := "dev";
  GenesisForkVersionMainnet := "0x00000000";
  GenesisForkVersionKiln := "0x70000069";
  GenesisForkVersionRopsten := "0x80000069";
  GenesisForkVersionSepolia := "0x90000069";
  LogSetup_returns := fun _ _ => true;
  SyncStatus_err := fun _ => None;
  NewRedisCache_err := fun _ => Some "dial tcp: connection refused";
  SecretKeyFromBytes_err := fun _ => None;
  NewRelayAPI_err := fun _ => None;
  StartServer_ret := fun _ => None
|}.

(** The service constructor refuses its options. *)
Definition constructorFails : World := {|
  Version := "dev";
  GenesisForkVersionMainnet := "0x00000000";
  GenesisForkVersionKiln := "0x70000069";
  GenesisForkVersionRopsten := "0x80000069";
  GenesisForkVersionSepolia := "0x90000069";
  LogSetup_returns := fun _ _ => true;
  SyncStatus_err := fun _ => None;
  NewRedisCache_err := fun _ => None;
  SecretKeyFromBytes_err := fun _ => None;
  NewRelayAPI_err := fun _ => Some "invalid options";
  StartServer_ret := fun _ => None
|}.

(** Only [LOG_JSON] is set. *)
Definition envLogJSON (v : string) : Env :=
  fun k => if (k =? "LOG_JSON")%string then Some v else None.

(** The variables as they stand when mainnet and kiln are both switched on. *)
Definition mainnetAndKiln : Flags := {|
  listenAddr := defaultListenAddr;
  beaconNodeURI := "http://localhost:3500";
  redisURI := "localhost:6379";
  logJSON := false;
  logLevel := "info";
  useGenesisForkVersionMainnet := true;
  useGenesisForkVersionKiln := true;
  useGenesisForkVersionRopsten := false;
  useGenesisForkVersionSepolia := false;
  useCustomGenesisForkVersion := "";
  apiPprof := false;
  secretKey := Sample.validKey;
  getHeaderWaitTimeMs := 500
|}.

(** A complete mainnet command line with a well-formed key. *)
Definition fullArgs : CmdLine :=
  withRedisURI "redis.internal:6379"
    (withBeaconURI "http://beacon.internal:3500"
       (withSecretKey Sample.validKey Sample.mainnetArgs)).

End Scenario.

(** * Properties *)

(** ** The process monad *)

Lemma bind_ret_l {A B} (a : A) (f : A -> Proc B) : bind (ret a) f = f a.
Proof. unfold bind, ret. now destruct (f a). Qed.

Lemma bind_exit {A B} (t : list Event) (c : Z) (f : A -> Proc B) :
  bind (t, Exited c) f = (t, Exited c).
Proof. reflexivity. Qed.

Lemma bind_returned {A B} (t : list Event) (a : A) (f : A -> Proc B) :
  bind (t, Returned a) f = ((t ++ trace (f a))%list, status (f a)).
Proof. unfold bind, trace, status. now destruct (f a). Qed.

(** ** The genesis fork version block *)

Lemma eqb_empty_false (s : string) : s <> "" -> (s =? "")%string = false.
Proof. intros H. now apply String.eqb_neq. Qed.

Lemma setGenesisForkVersion_custom (w : World) (g : Flags) :
  useCustomGenesisForkVersion g <> "" ->
  setGenesisForkVersion w g = ([], Returned (useCustomGenesisForkVersion g)).
Proof.
  intros H. unfold setGenesisForkVersion.
  now rewrite (eqb_empty_false _ H).
Qed.

Lemma setGenesisForkVersion_none (w : World) (g : Flags) :
  activeSources g = 0%nat ->
  setGenesisForkVersion w g = ([LogLine FatalLevel msgNoGenesisForkVersion None], Exited 1).
Proof.
  unfold activeSources, countTrue, setGenesisForkVersion.
  destruct (useCustomGenesisForkVersion g =? "")%string,
    (useGenesisForkVersionMainnet g), (useGenesisForkVersionKiln g),
    (useGenesisForkVersionRopsten g), (useGenesisForkVersionSepolia g);
    simpl; intros H; try discriminate H; reflexivity.
Qed.

Lemma setGenesisForkVersion_some (w : World) (g : Flags) :
  activeSources g <> 0%nat ->
  exists v, setGenesisForkVersion w g = ([], Returned v).
Proof.
  unfold activeSources, countTrue, setGenesisForkVersion.
  destruct (useCustomGenesisForkVersion g =? "")%string,
    (useGenesisForkVersionMainnet g), (useGenesisForkVersionKiln g),
    (useGenesisForkVersionRopsten g), (useGenesisForkVersionSepolia g);
    simpl; intros H; try (now elim H); eexists; reflexivity.
Qed.

(** The block either yields a version or stops the process; it yields one
    exactly when some source is switched on. *)
Lemma setGenesisForkVersion_returns (w : World) (g : Flags) (v : string) :
  setGenesisForkVersion w g = ([], Returned v) -> activeSources g <> 0%nat.
Proof.
  intros H E. rewrite (setGenesisForkVersion_none w g E) in H. discriminate H.
Qed.

(** ** Every run has one of the nine shapes *)

Ltac run_step := cbn -[append int64.mul time.Millisecond].

Lemma Run_shape (w : World) (g : Flags) : RunShape w g (Run w g).
Proof.
  unfold Run, common.LogSetup. run_step.
  destruct (LogSetup_returns w (logJSON g) (logLevel g)) eqn:HL;
    [ | now apply StopLogSetup ].
  destruct (Nat.eq_dec (activeSources g) 0) as [H0 | H0].
  { rewrite (setGenesisForkVersion_none w g H0). now apply StopIdentity. }
  destruct (setGenesisForkVersion_some w g H0) as [v Hv]. rewrite Hv.
  assert (Hid : identityResolved w g v) by (split; assumption).
  run_step.
  destruct (SyncStatus_err w _) as [e | ] eqn:HS.
  { exact (StopBeacon w g v e Hid HS). }
  assert (Hb : beaconSynced w g v) by (split; assumption).
  run_step.
  destruct (NewRedisCache_err w (redisURI g)) as [e | ] eqn:HR.
  { exact (StopRedis w g v e Hb HR). }
  assert (Hr : redisConnected w g v) by (split; assumption).
  run_step.
  destruct (hexutil.Decode (secretKey g)) as [b | e] eqn:HD.
  2:{ exact (StopDecode w g v e Hr HD). }
  assert (Hd : keyDecoded w g v b) by (split; assumption).
  run_step.
  destruct (SecretKeyFromBytes_err w b) as [e | ] eqn:HK.
  { exact (StopKey w g v b e Hd HK). }
  assert (Hk : keyLoaded w g v b) by (split; assumption).
  run_step.
  destruct (NewRelayAPI_err w _) as [e | ] eqn:HN.
  { exact (StopConstruct w g v b e Hk HN). }
  assert (Hs : serviceBuilt w g v b) by (split; assumption).
  run_step.
  destruct (StartServer_ret w _) as [r | ] eqn:HT.
  - exact (StopServe w g v b r Hs HT).
  - exact (KeepsServing w g v b Hs HT).
Qed.

(** A healthy mainnet start-up with a well-formed key gets through every
    stage and stays in the serve call. *)
Example healthy_mainnet_serves :
  exists t,
    Execute (Sample.healthy None) Sample.emptyEnv
      (withSecretKey Sample.validKey Sample.mainnetArgs)
    = Started (t, Blocked) /\
    calls isSyncStatus t = 1%nat /\ calls isNewRedisCache t = 1%nat /\
    calls isNewRelayAPI t = 1%nat /\ calls isStartServer t = 1%nat.
Proof.
  eexists. split; [ vm_compute; reflexivity | repeat split ].
Qed.

(** ** Reading facts off a shape *)

Ltac unfold_stages :=
  unfold tServe, tConstruct, tKey, tDecode, tRedis, tBeacon, tBanner, tLogSetup,
    fatalLine, fatal, endsWith, calls, onlyLogging, trace, status in *.

Ltac shape_simpl := unfold_stages; cbn -[append int64.mul time.Millisecond] in *.

Ltac unpack_stages :=
  repeat match goal with
  | H : serviceBuilt _ _ _ _ |- _ => destruct H as [H ?HApi]
  | H : keyLoaded _ _ _ _ |- _ => destruct H as [H ?HKey]
  | H : keyDecoded _ _ _ _ |- _ => destruct H as [H ?HDec]
  | H : redisConnected _ _ _ |- _ => destruct H as [H ?HRedis]
  | H : beaconSynced _ _ _ |- _ => destruct H as [H ?HSync]
  end.

(** Case analysis on the shape of [Run w g], in the goal and in every
    hypothesis that speaks about the run. *)
Ltac by_shape w g :=
  let p := fresh "p" in
  let Ep := fresh "Ep" in
  let S := fresh "S" in
  pose proof (Run_shape w g) as S;
  remember (Run w g) as p eqn:Ep in *;
  destruct S; unpack_stages; clear Ep; shape_simpl.

Ltac in_trace :=
  repeat match goal with
  | H : _ \/ _ |- _ => destruct H as [H | H]
  | H : False |- _ => elim H
  | H : ?a = ?b |- _ => first [ discriminate H | (injection H as H; subst) ]
  end.

(** A resolved identity means that some source is switched on. *)
Lemma identityResolved_active (w : World) (g : Flags) (v : string) :
  identityResolved w g v -> activeSources g <> 0%nat.
Proof.
  intros [_ H]. exact (setGenesisForkVersion_returns w g v H).
Qed.

Lemma noSource_activeSources (g : Flags) :
  useCustomGenesisForkVersion g = "" ->
  namedNetwork g = false ->
  activeSources g = 0%nat.
Proof.
  unfold namedNetwork, activeSources, countTrue. intros -> H.
  destruct (useGenesisForkVersionMainnet g), (useGenesisForkVersionKiln g),
    (useGenesisForkVersionRopsten g), (useGenesisForkVersionSepolia g);
    try discriminate H; reflexivity.
Qed.

(** C3: when no source of the genesis fork version is switched on (the custom
    override is empty and no named network is selected), the run ends through
    [Fatal] having done nothing but logging: the beacon client is not
    created or queried, Redis is not dialled, no other collaborator is
    called.  Once logging is set up, the last entry is the request to
    specify a genesis fork version.  The same holds for start-up as a whole,
    where the command line may also be refused before [Run]. *)
Theorem no_identity_is_fatal_before_any_dependency (w : World) (g : Flags) :
  useCustomGenesisForkVersion g = "" ->
  useGenesisForkVersionMainnet g = false ->
  useGenesisForkVersionKiln g = false ->
  useGenesisForkVersionRopsten g = false ->
  useGenesisForkVersionSepolia g = false ->
  fatal (Run w g) /\
  onlyLogging (trace (Run w g)) = true /\
  calls isSyncStatus (trace (Run w g)) = 0%nat /\
  calls isNewRedisCache (trace (Run w g)) = 0%nat /\
  (LogSetup_returns w (logJSON g) (logLevel g) = true ->
   endsWith (Run w g) [LogLine FatalLevel msgNoGenesisForkVersion None]) /\
  (forall env a, init env a = g -> failsBeforeIO (Execute w env a)).
Proof.
  intros Hc Hm Hk Hr Hs.
  assert (H0 : activeSources g = 0%nat).
  { apply noSource_activeSources; [assumption | ].
    unfold namedNetwork. now rewrite Hm, Hk, Hr, Hs. }
  split; [ | split; [ | split; [ | split; [ | split ] ] ] ].
  6:{ intros env a <-. unfold Execute.
      destruct (ParseFlags a); [ | exact I ].
      destruct (ValidateFlagGroups a); [ | exact I ].
      cbn [negb failsBeforeIO].
      split; by_shape w (init env a); try reflexivity;
        match goal with H : identityResolved _ _ _ |- _ =>
          elim (identityResolved_active _ _ _ H H0) end. }
  all: by_shape w g;
    try match goal with H : identityResolved _ _ _ |- _ =>
          elim (identityResolved_active _ _ _ H H0) end;
    try reflexivity.
  - congruence.
  - intros _.
    now exists [LogSetupCall (logJSON g) (logLevel g);
                LogLine InfoLevel ("boost-relay " ++ Version w) None].
Qed.

(** Witness for C3: the default command line in an empty environment. *)
Lemma no_identity_is_fatal_before_any_dependency_witness :
  fatal (Run (Sample.healthy None) (init Sample.emptyEnv Sample.noArgs)) /\
  onlyLogging (trace (Run (Sample.healthy None) (init Sample.emptyEnv Sample.noArgs))) = true.
Proof.
  pose proof (no_identity_is_fatal_before_any_dependency (Sample.healthy None)
                (init Sample.emptyEnv Sample.noArgs)
                eq_refl eq_refl eq_refl eq_refl eq_refl) as H.
  split; [ exact (proj1 H) | exact (proj1 (proj2 H)) ].
Defined.

(** The sync status is asked for at most once in any run. *)
Lemma SyncStatus_at_most_once (w : World) (g : Flags) :
  (calls isSyncStatus (trace (Run w g)) <= 1)%nat.
Proof. by_shape w g; lia. Qed.

(** C4: in a run where the beacon client's sync-status query comes back with
    an error, the very next thing is the fatal entry "Beacon node is syncing"
    carrying that error, and the process exits; Redis is never dialled, and
    the query was made exactly once. *)
Theorem beacon_sync_error_aborts_before_redis
    (w : World) (g : Flags) (c : ProdBeaconClient) (e : error) :
  In (SyncStatusCall c) (trace (Run w g)) ->
  SyncStatus_err w c = Some e ->
  fatal (Run w g) /\
  endsWith (Run w g)
    [SyncStatusCall c; LogLine FatalLevel "Beacon node is syncing" (Some e)] /\
  calls isNewRedisCache (trace (Run w g)) = 0%nat /\
  calls isSyncStatus (trace (Run w g)) = 1%nat.
Proof.
  intros Hin Herr.
  by_shape w g; in_trace; try congruence.
  assert (e0 = e) by congruence. subst e0.
  repeat split.
  now exists [LogSetupCall (logJSON g) (logLevel g);
              LogLine InfoLevel ("boost-relay " ++ Version w) None;
              LogLine InfoLevel ("Using genesis fork version: " ++ v) None;
              LogLine InfoLevel ("Using beacon endpoint: " ++ beaconNodeURI g) None;
              NewProdBeaconClientCall (beaconNodeURI g)].
Qed.

(** Witness for C4: mainnet selected, the beacon node still syncing. *)
Lemma beacon_sync_error_aborts_before_redis_witness :
  fatal (Run Sample.syncing (init Sample.emptyEnv (withMainnet Sample.noArgs))) /\
  calls isNewRedisCache
    (trace (Run Sample.syncing (init Sample.emptyEnv (withMainnet Sample.noArgs))))
  = 0%nat.
Proof.
  pose proof (beacon_sync_error_aborts_before_redis Sample.syncing
                (init Sample.emptyEnv (withMainnet Sample.noArgs))
                {| bc_log := theLog; bc_uri := "" |} "beacon node is syncing") as H.
  assert (Hin : In (SyncStatusCall {| bc_log := theLog; bc_uri := "" |})
                  (trace (Run Sample.syncing
                            (init Sample.emptyEnv (withMainnet Sample.noArgs))))).
  { vm_compute. tauto. }
  specialize (H Hin eq_refl).
  split; [ exact (proj1 H) | exact (proj1 (proj2 (proj2 H))) ].
Defined.

(** [Run] never comes back to its caller: it ends through [Fatal] or stays
    in the serve call. *)
Lemma Run_never_returns (w : World) (g : Flags) :
  fatal (Run w g) \/ status (Run w g) = Blocked.
Proof. by_shape w g; auto. Qed.

(** A run that stays blocked is blocked in the serve call. *)
Lemma Run_blocked_serving (w : World) (g : Flags) :
  status (Run w g) = Blocked ->
  exists srv, endsWith (Run w g) [StartServerCall srv] /\ StartServer_ret w srv = None.
Proof.
  intros H. by_shape w g; try discriminate H.
  exists (theService g v b). split; [ | assumption ].
  now exists (tConstruct w g v b ++
              [LogLine InfoLevel ("Webserver starting on " ++ listenAddr g ++ " ...") None])%list.
Qed.

(** C8: in a run where the serve call comes back with [r], be it an error or
    [nil], the next and last thing is a fatal entry (formatted from [r]) and
    the process exits with status 1.  No run hands control back to the
    caller of [Run]; a run that does not end through [Fatal] is still inside
    the serve call. *)
Theorem serve_return_is_always_fatal
    (w : World) (g : Flags) (srv : RelayAPI) (r : option error) :
  In (StartServerCall srv) (trace (Run w g)) ->
  StartServer_ret w srv = Some r ->
  fatal (Run w g) /\
  endsWith (Run w g)
    [StartServerCall srv; LogLine FatalLevel (logrus.Sprint r) None] /\
  (forall u, status (Run w g) <> Returned u) /\
  calls isStartServer (trace (Run w g)) = 1%nat.
Proof.
  intros Hin Hret.
  assert (Hnr : forall u, status (Run w g) <> Returned u).
  { intros u E. destruct (Run_never_returns w g) as [F | F];
      unfold fatal in F; rewrite F in E; discriminate E. }
  revert Hnr.
  by_shape w g; intros Hnr; in_trace; try congruence.
  assert (r0 = r) by congruence. subst r0.
  repeat split; try assumption.
  now exists (tConstruct w g v b ++
              [LogLine InfoLevel ("Webserver starting on " ++ listenAddr g ++ " ...") None])%list.
Qed.

(** Witness for C8: a healthy start-up whose serve call returns [nil]. *)
Lemma serve_return_is_always_fatal_witness :
  fatal (Run (Sample.healthy (Some None))
           (init Sample.emptyEnv
              (withSecretKey Sample.validKey (withMainnet Sample.noArgs)))).
Proof.
  refine (proj1 (serve_return_is_always_fatal (Sample.healthy (Some None))
                   (init Sample.emptyEnv
                      (withSecretKey Sample.validKey
                         (withMainnet Sample.noArgs)))
                   (theService
                      (init Sample.emptyEnv
                         (withSecretKey Sample.validKey
                            (withMainnet Sample.noArgs)))
                      "0x00000000" Sample.validKeyBytes)
                   None _ eq_refl)).
  vm_compute. tauto.
Defined.

(** ** Order of events *)

Lemma before_cons (a b x : Event) (t : list Event) :
  before a b t -> before a b (x :: t).
Proof.
  intros (t1 & t2 & t3 & ->). now exists (x :: t1), t2, t3.
Qed.

Lemma before_here (a b : Event) (t : list Event) :
  In b t -> before a b (a :: t).
Proof.
  intros H. destruct (in_split b t H) as (t2 & t3 & ->). now exists [], t2, t3.
Qed.

Ltac find_in := cbn -[append int64.mul time.Millisecond];
  repeat first [ left; reflexivity | right ].

Ltac find_before :=
  repeat first [ (apply before_here; find_in) | apply before_cons ].

(** ** The key-loading stage *)

(** The key is decoded exactly in the runs that got past Redis, and it is
    the [secretKey] variable that is decoded. *)
Lemma Decode_reached (w : World) (g : Flags) (s : string) :
  In (DecodeCall s) (trace (Run w g)) ->
  s = secretKey g /\ exists v, redisConnected w g v.
Proof.
  intros Hin. by_shape w g; in_trace;
    (split; [ reflexivity | exists v; unfold redisConnected, beaconSynced; auto ]).
Qed.

(** A run that got past Redis and cannot decode the key stops right there. *)
Lemma Decode_failure (w : World) (g : Flags) (v : string) (e : error) :
  redisConnected w g v ->
  hexutil.Decode (secretKey g) = Err e ->
  Run w g = ((tDecode w g v ++ fatalLine "incorrect secret key provided" e)%list, Exited 1).
Proof.
  intros [[[HL Hv] HS] HR] HD.
  pose proof (Run_shape w g) as S.
  destruct S; unpack_stages;
    try match goal with H : identityResolved _ _ _ |- _ => destruct H as [? ?] end;
    try congruence.
  pose proof (setGenesisForkVersion_returns w g v Hv). contradiction.
Qed.

(** An undecodable key never gets as far as BLS or the service constructor,
    wherever the run stops. *)
Lemma undecodable_key_never_used (w : World) (g : Flags) (e : error) :
  hexutil.Decode (secretKey g) = Err e ->
  fatal (Run w g) /\
  calls isSecretKeyFromBytes (trace (Run w g)) = 0%nat /\
  calls isNewRelayAPI (trace (Run w g)) = 0%nat.
Proof.
  intros HD. by_shape w g; auto; congruence.
Qed.

(** C5: let the secret-key string be one that hexutil cannot decode.  Then
    the run ends through [Fatal] and neither BLS nor the service constructor
    is ever called.  If the run gets to decode the key, the decoding is
    followed at once by the fatal entry "incorrect secret key provided" with
    the decoder's error, and before the decoding the beacon node's sync
    status was asked for and came back without error, and Redis was dialled
    and connected.  The decoding is reached whenever log set-up returns, a
    genesis fork version is selected, and beacon and Redis answer without
    error. *)
Theorem undecodable_key_is_fatal_before_construction
    (w : World) (g : Flags) (e : error) :
  hexutil.Decode (secretKey g) = Err e ->
  fatal (Run w g) /\
  calls isSecretKeyFromBytes (trace (Run w g)) = 0%nat /\
  calls isNewRelayAPI (trace (Run w g)) = 0%nat /\
  (In (DecodeCall (secretKey g)) (trace (Run w g)) ->
   endsWith (Run w g)
     [DecodeCall (secretKey g);
      LogLine FatalLevel "incorrect secret key provided" (Some e)] /\
   (exists c, SyncStatus_err w c = None /\
              before (SyncStatusCall c) (DecodeCall (secretKey g)) (trace (Run w g))) /\
   (exists uri, NewRedisCache_err w uri = None /\
                before (NewRedisCacheCall uri) (DecodeCall (secretKey g))
                  (trace (Run w g)))) /\
  (LogSetup_returns w (logJSON g) (logLevel g) = true ->
   activeSources g <> 0%nat ->
   SyncStatus_err w (theBeaconClient g) = None ->
   NewRedisCache_err w (redisURI g) = None ->
   In (DecodeCall (secretKey g)) (trace (Run w g))).
Proof.
  intros HD.
  destruct (undecodable_key_never_used w g e HD) as (F & K & N).
  repeat split; try assumption.
  - destruct (Decode_reached w g _ H) as [_ [v Hr]].
    rewrite (Decode_failure w g v e Hr HD). shape_simpl.
    now exists [LogSetupCall (logJSON g) (logLevel g);
                LogLine InfoLevel ("boost-relay " ++ Version w) None;
                LogLine InfoLevel ("Using genesis fork version: " ++ v) None;
                LogLine InfoLevel ("Using beacon endpoint: " ++ beaconNodeURI g) None;
                NewProdBeaconClientCall (beaconNodeURI g);
                SyncStatusCall (theBeaconClient g);
                NewRedisCacheCall (redisURI g);
                LogLine InfoLevel ("Connected to Redis at " ++ redisURI g) None;
                NewProdProposerDatastoreCall (theRedis g)].
  - destruct (Decode_reached w g _ H) as [_ [v Hr]].
    rewrite (Decode_failure w g v e Hr HD).
    exists (theBeaconClient g). split; [ apply Hr | ].
    shape_simpl. find_before.
  - destruct (Decode_reached w g _ H) as [_ [v Hr]].
    rewrite (Decode_failure w g v e Hr HD).
    exists (redisURI g). split; [ apply Hr | ].
    shape_simpl. find_before.
  - intros HL H0 HS HR.
    destruct (setGenesisForkVersion_some w g H0) as [v Hv].
    rewrite (Decode_failure w g v e); [ shape_simpl; find_in | | assumption ].
    repeat split; assumption.
Qed.

(** Witness for C5: mainnet with the secret key ["not-hex"]. *)
Lemma undecodable_key_is_fatal_before_construction_witness :
  fatal (Run (Sample.healthy None)
           (init Sample.emptyEnv
              (withSecretKey "not-hex" (withMainnet Sample.noArgs)))) /\
  In (DecodeCall "not-hex")
    (trace (Run (Sample.healthy None)
              (init Sample.emptyEnv
                 (withSecretKey "not-hex" (withMainnet Sample.noArgs))))).
Proof.
  pose proof (undecodable_key_is_fatal_before_construction (Sample.healthy None)
                (init Sample.emptyEnv
                   (withSecretKey "not-hex" (withMainnet Sample.noArgs)))
                "hex string without 0x prefix" eq_refl) as H.
  split; [ exact (proj1 H) | ].
  refine (proj2 (proj2 (proj2 (proj2 H))) eq_refl _ eq_refl eq_refl).
  vm_compute. discriminate.
Defined.

(** C6: once a run decodes the key string [s], key loading can fail at two
    points and nowhere else.  (a) If hexutil rejects [s], the next and last
    entry is the fatal "incorrect secret key provided" with the decoder's
    error, and BLS is never called.  (b) If hexutil yields bytes [b], BLS is
    called on [b]; if BLS rejects them, the next and last entry is the fatal
    "incorrect builder API secret key provided" with the BLS error, and the
    service constructor is never called.  If both succeed, the run goes on to
    call the service constructor with the key made of [b].  The two messages
    differ. *)
Theorem key_loading_has_two_failure_points (w : World) (g : Flags) (s : string) :
  In (DecodeCall s) (trace (Run w g)) ->
  match hexutil.Decode s with
  | Err e =>
      fatal (Run w g) /\
      endsWith (Run w g)
        [DecodeCall s; LogLine FatalLevel "incorrect secret key provided" (Some e)] /\
      calls isSecretKeyFromBytes (trace (Run w g)) = 0%nat
  | Ok b =>
      before (DecodeCall s) (SecretKeyFromBytesCall b) (trace (Run w g)) /\
      match SecretKeyFromBytes_err w b with
      | Some e =>
          fatal (Run w g) /\
          endsWith (Run w g)
            [DecodeCall s; SecretKeyFromBytesCall b;
             LogLine FatalLevel "incorrect builder API secret key provided" (Some e)] /\
          calls isNewRelayAPI (trace (Run w g)) = 0%nat
      | None =>
          exists opts,
            before (SecretKeyFromBytesCall b) (NewRelayAPICall opts) (trace (Run w g)) /\
            sk_bytes (SecretKey opts) = b
      end
  end /\
  "incorrect secret key provided" <> "incorrect builder API secret key provided".
Proof.
  intros Hin. split; [ | discriminate ].
  by_shape w g; in_trace.
  - (* hexutil rejects the string *)
    rewrite H0. repeat split.
    now exists (tRedis w g v ++
                [LogLine InfoLevel ("Connected to Redis at " ++ redisURI g) None;
                 NewProdProposerDatastoreCall (theRedis g)])%list.
  - (* BLS rejects the bytes *)
    rewrite HDec. split; [ find_before | ]. rewrite H0. repeat split.
    now exists (tRedis w g v ++
                [LogLine InfoLevel ("Connected to Redis at " ++ redisURI g) None;
                 NewProdProposerDatastoreCall (theRedis g)])%list.
  - (* the constructor fails *)
    rewrite HDec. split; [ find_before | ]. rewrite HKey.
    exists (theOpts g v b). split; [ find_before | reflexivity ].
  - (* serving *)
    rewrite HDec. split; [ find_before | ]. rewrite HKey.
    exists (theOpts g v b). split; [ find_before | reflexivity ].
  - (* the serve call came back *)
    rewrite HDec. split; [ find_before | ]. rewrite HKey.
    exists (theOpts g v b). split; [ find_before | reflexivity ].
Qed.

(** Witness for C6: a two-byte key passes hexutil and is refused by BLS. *)
Lemma key_loading_has_two_failure_points_witness :
  fatal (Run Sample.strictKeys
           (init Sample.emptyEnv
              (withSecretKey "0x1234" (withMainnet Sample.noArgs)))) /\
  calls isNewRelayAPI
    (trace (Run Sample.strictKeys
              (init Sample.emptyEnv
                 (withSecretKey "0x1234" (withMainnet Sample.noArgs)))))
  = 0%nat.
Proof.
  assert (Hin : In (DecodeCall "0x1234")
                  (trace (Run Sample.strictKeys
                            (init Sample.emptyEnv
                               (withSecretKey "0x1234"
                                  (withMainnet Sample.noArgs)))))).
  { vm_compute. tauto. }
  pose proof (proj1 (key_loading_has_two_failure_points Sample.strictKeys
                       (init Sample.emptyEnv
                          (withSecretKey "0x1234"
                             (withMainnet Sample.noArgs)))
                       "0x1234" Hin)) as H.
  change (hexutil.Decode "0x1234") with (@Ok (list byte) [18; 52]) in H.
  cbv beta iota in H. destruct H as [_ H].
  change (SecretKeyFromBytes_err Sample.strictKeys [18; 52])
    with (Some "invalid secret key length") in H.
  cbv beta iota in H.
  split; [ exact (proj1 H) | exact (proj2 (proj2 H)) ].
Defined.

(** ** An absent secret key *)

Lemma Decode_empty : hexutil.Decode "" = Err "empty hex string".
Proof. reflexivity. Qed.

(** Flag parsing and validation do not look at the secret key. *)
Lemma Execute_Rejected_secret_key (w : World) (env : Env) (a : CmdLine) (s : string) :
  Execute w env a = Rejected <-> Execute w env (withSecretKey s a) = Rejected.
Proof.
  unfold Execute. 
  change (ParseFlags (withSecretKey s a)) with (ParseFlags a).
  change (ValidateFlagGroups (withSecretKey s a)) with (ValidateFlagGroups a).
  destruct (ParseFlags a), (ValidateFlagGroups a); simpl;
    split; intros H; try reflexivity; discriminate H.
Qed.

(** C9: when the secret-key flag does not occur on the command line, the
    [secretKey] variable is the empty string, and parsing and validating the
    flags give the same verdict as they would with any key supplied.  The
    empty string is refused by hexutil ("empty hex string"), so the run
    always ends through [Fatal] and never constructs the service.  Whenever
    log set-up returns, a genesis fork version is selected, the beacon
    node's sync status comes back without error and Redis connects, the run
    ends with the decoding of the empty string followed by the fatal entry
    "incorrect secret key provided"; and whenever the run gets to the
    decoding, the sync query and the Redis connection came before it and
    succeeded. *)
Theorem absent_secret_key_fails_at_decoding (w : World) (env : Env) (a : CmdLine) :
  arg_secret_key a = None ->
  secretKey (init env a) = "" /\
  (forall s, Execute w env a = Rejected <->
             Execute w env (withSecretKey s a) = Rejected) /\
  (ParseFlags a = true -> ValidateFlagGroups a = true ->
   Execute w env a = Started (Run w (init env a))) /\
  hexutil.Decode "" = Err "empty hex string" /\
  fatal (Run w (init env a)) /\
  calls isNewRelayAPI (trace (Run w (init env a))) = 0%nat /\
  (LogSetup_returns w (logJSON (init env a)) (logLevel (init env a)) = true ->
   activeSources (init env a) <> 0%nat ->
   SyncStatus_err w (theBeaconClient (init env a)) = None ->
   NewRedisCache_err w (redisURI (init env a)) = None ->
   endsWith (Run w (init env a))
     [DecodeCall "";
      LogLine FatalLevel "incorrect secret key provided" (Some "empty hex string")]) /\
  (In (DecodeCall "") (trace (Run w (init env a))) ->
   before (SyncStatusCall (theBeaconClient (init env a))) (DecodeCall "")
     (trace (Run w (init env a))) /\
   SyncStatus_err w (theBeaconClient (init env a)) = None /\
   before (NewRedisCacheCall (redisURI (init env a))) (DecodeCall "")
     (trace (Run w (init env a))) /\
   NewRedisCache_err w (redisURI (init env a)) = None).
Proof.
  intros Habs.
  assert (Hs : secretKey (init env a) = "") by (simpl; now rewrite Habs).
  assert (HD : hexutil.Decode (secretKey (init env a)) = Err "empty hex string")
    by (rewrite Hs; reflexivity).
  destruct (undecodable_key_never_used w (init env a) _ HD) as (F & _ & N).
  split; [ exact Hs | ].
  split; [ intros s; apply Execute_Rejected_secret_key | ].
  split; [ intros HP HV; unfold Execute; now rewrite HP, HV | ].
  split; [ reflexivity | ].
  split; [ exact F | ].
  split; [ exact N | ].
  split.
  - intros HL H0 HS HR.
    destruct (setGenesisForkVersion_some w (init env a) H0) as [v Hv].
    assert (Hr : redisConnected w (init env a) v) by (repeat split; assumption).
    unfold endsWith. rewrite (Decode_failure w (init env a) v _ Hr HD).
    unfold trace, tDecode, fatalLine; cbn [fst]. rewrite Hs.
    exists (tRedis w (init env a) v ++
            [LogLine InfoLevel ("Connected to Redis at " ++ redisURI (init env a)) None;
             NewProdProposerDatastoreCall (theRedis (init env a))])%list.
    now rewrite <- !app_assoc.
  - intros Hin.
    destruct (Decode_reached w (init env a) _ Hin) as [_ [v Hr]].
    rewrite (Decode_failure w (init env a) v _ Hr HD).
    destruct Hr as [[_ HS] HR].
    unfold trace, tDecode, tRedis, tBeacon, tBanner, tLogSetup, fatalLine; cbn [fst].
    rewrite Hs.
    repeat split; try assumption;
      cbn -[append int64.mul time.Millisecond init]; find_before.
Qed.

(** Witness for C9: mainnet on the command line and nothing else. *)
Lemma absent_secret_key_fails_at_decoding_witness :
  fatal (Run (Sample.healthy None) (init Sample.emptyEnv (withMainnet Sample.noArgs))) /\
  endsWith (Run (Sample.healthy None) (init Sample.emptyEnv (withMainnet Sample.noArgs)))
    [DecodeCall "";
     LogLine FatalLevel "incorrect secret key provided" (Some "empty hex string")].
Proof.
  pose proof (absent_secret_key_fails_at_decoding (Sample.healthy None)
                Sample.emptyEnv (withMainnet Sample.noArgs) eq_refl) as H.
  split; [ exact (proj1 (proj2 (proj2 (proj2 (proj2 H))))) | ].
  refine (proj1 (proj2 (proj2 (proj2 (proj2 (proj2 (proj2 H))))))
            eq_refl _ eq_refl eq_refl).
  vm_compute. discriminate.
Defined.

(** ** What reaches the service constructor *)

(** The options handed to [NewRelayAPI] are the ones assembled from the
    flags, the resolved genesis fork version and the loaded key. *)
Lemma NewRelayAPI_opts (w : World) (g : Flags) (opts : RelayAPIOpts) :
  In (NewRelayAPICall opts) (trace (Run w g)) ->
  exists v b, setGenesisForkVersion w g = ([], Returned v) /\ opts = theOpts g v b.
Proof.
  intros Hin. by_shape w g; in_trace;
    exists v, b; (split; [ now destruct H | reflexivity ]).
Qed.

(** The constructor is reached when every earlier stage goes well. *)
Lemma NewRelayAPI_reached (w : World) (g : Flags) (v : string) (b : list byte) :
  keyLoaded w g v b -> In (NewRelayAPICall (theOpts g v b)) (trace (Run w g)).
Proof.
  intros [[[[[HL Hv] HS] HR] HD] HK].
  by_shape w g;
    try match goal with H : identityResolved _ _ _ |- _ => destruct H as [? ?] end;
    try congruence.
  - pose proof (setGenesisForkVersion_returns w g v Hv). contradiction.
  - assert (v0 = v) by congruence. assert (b0 = b) by congruence. subst. find_in.
  - assert (v0 = v) by congruence. assert (b0 = b) by congruence. subst. find_in.
  - assert (v0 = v) by congruence. assert (b0 = b) by congruence. subst. find_in.
Qed.

(** Once logging is set up and a version is resolved, the version is logged
    and the beacon node is asked for its sync status. *)
Lemma identity_logged_then_beacon (w : World) (g : Flags) (v : string) :
  identityResolved w g v ->
  before (LogLine InfoLevel ("Using genesis fork version: " ++ v) None)
    (SyncStatusCall (theBeaconClient g)) (trace (Run w g)).
Proof.
  intros [HL Hv].
  by_shape w g;
    try match goal with H : identityResolved _ _ _ |- _ => destruct H as [? ?] end;
    try congruence;
    try (pose proof (setGenesisForkVersion_returns w g v Hv); contradiction);
    assert (v0 = v) by congruence; subst; find_before.
Qed.

Lemma before_In_l (a b : Event) (t : list Event) : before a b t -> In a t.
Proof.
  intros (t1 & t2 & t3 & ->). apply in_or_app. right. now left.
Qed.

Lemma before_In_r (a b : Event) (t : list Event) : before a b t -> In b t.
Proof.
  intros (t1 & t2 & t3 & ->). apply in_or_app. right. right.
  apply in_or_app. right. now left.
Qed.

Lemma onlyLogging_not_In (t : list Event) (e : Event) :
  In e t -> isLogging e = false -> onlyLogging t <> true.
Proof.
  intros Hin He Hall. unfold onlyLogging in Hall.
  rewrite forallb_forall in Hall. specialize (Hall e Hin). congruence.
Qed.

(** C2: when the custom override is a non-empty string and at least one of
    the named-network flags is set as well, the block that sets the genesis
    fork version yields the custom override: that is the value logged as the
    version in use (once logging is set up) and the value found in the
    options of every call to the service constructor. *)
Theorem custom_override_takes_precedence (w : World) (g : Flags) :
  useCustomGenesisForkVersion g <> "" ->
  namedNetwork g = true ->
  setGenesisForkVersion w g = ([], Returned (useCustomGenesisForkVersion g)) /\
  (forall opts, In (NewRelayAPICall opts) (trace (Run w g)) ->
                GenesisForkVersionHex opts = useCustomGenesisForkVersion g) /\
  (LogSetup_returns w (logJSON g) (logLevel g) = true ->
   In (LogLine InfoLevel
         ("Using genesis fork version: " ++ useCustomGenesisForkVersion g) None)
      (trace (Run w g))).
Proof.
  intros Hc _.
  pose proof (setGenesisForkVersion_custom w g Hc) as Hv.
  split; [ exact Hv | split ].
  - intros opts Hin.
    destruct (NewRelayAPI_opts w g opts Hin) as (v & b & Hv' & ->).
    simpl. congruence.
  - intros HL. eapply before_In_l. apply identity_logged_then_beacon. now split.
Qed.

(** Witness for C2: the override ["0x12345678"] together with mainnet. *)
Lemma custom_override_takes_precedence_witness :
  setGenesisForkVersion (Sample.healthy None)
    (init (Sample.envCustom "0x12345678") (withMainnet Sample.noArgs))
  = ([], Returned "0x12345678").
Proof.
  refine (proj1 (custom_override_takes_precedence (Sample.healthy None)
                   (init (Sample.envCustom "0x12345678") (withMainnet Sample.noArgs))
                   _ eq_refl)).
  vm_compute. discriminate.
Defined.

(** C10: a non-empty custom override, given with the flag or, when the flag
    does not occur, through [GENESIS_FORK_VERSION], becomes the genesis fork
    version as it stands.  Nothing inspects the string: whatever its
    content, it is the value the block yields, the value in the options of
    every call to the service constructor, and, once logging is set up, the
    value logged before the beacon node is queried. *)
Theorem custom_override_recorded_verbatim
    (w : World) (env : Env) (a : CmdLine) (s : string) :
  s <> "" ->
  arg_genesis_fork_version a = Some s \/
  (arg_genesis_fork_version a = None /\ Getenv env "GENESIS_FORK_VERSION" = s) ->
  useCustomGenesisForkVersion (init env a) = s /\
  setGenesisForkVersion w (init env a) = ([], Returned s) /\
  (forall opts, In (NewRelayAPICall opts) (trace (Run w (init env a))) ->
                GenesisForkVersionHex opts = s) /\
  (LogSetup_returns w (logJSON (init env a)) (logLevel (init env a)) = true ->
   before (LogLine InfoLevel ("Using genesis fork version: " ++ s) None)
     (SyncStatusCall (theBeaconClient (init env a)))
     (trace (Run w (init env a)))).
Proof.
  intros Hs Hsrc.
  assert (Hc : useCustomGenesisForkVersion (init env a) = s).
  { simpl. destruct Hsrc as [-> | [-> E]]; [ reflexivity | exact E ]. }
  assert (Hv : setGenesisForkVersion w (init env a) = ([], Returned s)).
  { rewrite <- Hc. apply setGenesisForkVersion_custom. now rewrite Hc. }
  split; [ exact Hc | split; [ exact Hv | split ] ].
  - intros opts Hin.
    destruct (NewRelayAPI_opts w (init env a) opts Hin) as (v & b & Hv' & ->).
    simpl. congruence.
  - intros HL. apply identity_logged_then_beacon. now split.
Qed.

(** Witness for C10: an override that is not hexadecimal, through the flag
    and through the environment. *)
Lemma custom_override_recorded_verbatim_witness :
  hexutil.Decode "mainnet?" = Err "hex string without 0x prefix" /\
  setGenesisForkVersion (Sample.healthy None)
    (init Sample.emptyEnv (withGenesisForkVersion "mainnet?" Sample.noArgs))
  = ([], Returned "mainnet?") /\
  setGenesisForkVersion (Sample.healthy None)
    (init (Sample.envCustom "mainnet?") Sample.noArgs)
  = ([], Returned "mainnet?").
Proof.
  assert (Hs : "mainnet?" <> "") by discriminate.
  split; [ reflexivity | split ].
  - exact (proj1 (proj2 (custom_override_recorded_verbatim (Sample.healthy None)
                           Sample.emptyEnv
                           (withGenesisForkVersion "mainnet?" Sample.noArgs)
                           "mainnet?" Hs (or_introl eq_refl)))).
  - exact (proj1 (proj2 (custom_override_recorded_verbatim (Sample.healthy None)
                           (Sample.envCustom "mainnet?") Sample.noArgs
                           "mainnet?" Hs (or_intror (conj eq_refl eq_refl))))).
Defined.

(** ** The wait on getHeader requests *)

Lemma int64_wrap_small (z : Z) :
  int64.min <= z <= int64.max -> int64.wrap z = z.
Proof.
  unfold int64.wrap, int64.min, int64.max. intros H.
  rewrite Z.mod_small; lia.
Qed.

Lemma Millisecond_value : time.Millisecond = 1000000.
Proof. reflexivity. Qed.

(** A whole number of milliseconds that fits into a [Duration] is converted
    exactly. *)
Lemma mul_Millisecond_exact (n : Z) :
  -9223372036854 <= n <= 9223372036854 ->
  int64.mul n time.Millisecond = n * time.Millisecond.
Proof.
  intros H. unfold int64.mul. rewrite Millisecond_value.
  apply int64_wrap_small. unfold int64.min, int64.max. lia.
Qed.

Lemma Milliseconds_mul (n : Z) : time.Milliseconds (n * time.Millisecond) = n.
Proof.
  unfold time.Milliseconds. rewrite Millisecond_value.
  apply Z.quot_mul. discriminate.
Qed.

(** The claim C7 refuted at 9223372036855 ms: the command line is accepted,
    the service constructor is called, and the wait in its options is a
    negative duration, not 9223372036855 ms. *)
Lemma wait_time_overflows :
  ParseFlags Sample.longWaitArgs = true /\
  ValidateFlagGroups Sample.longWaitArgs = true /\
  getHeaderWaitTimeMs (init Sample.emptyEnv Sample.longWaitArgs) = 9223372036855 /\
  exists opts,
    In (NewRelayAPICall opts)
       (trace (Run (Sample.healthy None) (init Sample.emptyEnv Sample.longWaitArgs))) /\
    GetHeaderWaitTime opts = -9223372036854551616 /\
    GetHeaderWaitTime opts <> 9223372036855 * time.Millisecond /\
    time.Milliseconds (GetHeaderWaitTime opts) <> 9223372036855.
Proof.
  repeat split.
  exists (theOpts (init Sample.emptyEnv Sample.longWaitArgs) "0x00000000"
            Sample.validKeyBytes).
  split; [ vm_compute; tauto | ].
  split; [ reflexivity | split; vm_compute; discriminate ].
Qed.

(** C7, amended: in every call to the service constructor the wait in the
    options is the [int64] product of the [getheader-wait-ms] value and one
    millisecond.  For values between -9223372036854 and 9223372036854 the
    product does not wrap, so the wait equals that many milliseconds and
    reads back as the same number; this covers 500, and then it makes no
    difference whether 500 was given with the flag or is the default. *)
Theorem wait_time_is_int64_milliseconds
    (w : World) (g : Flags) (opts : RelayAPIOpts) :
  In (NewRelayAPICall opts) (trace (Run w g)) ->
  GetHeaderWaitTime opts = int64.wrap (getHeaderWaitTimeMs g * 1000000) /\
  (-9223372036854 <= getHeaderWaitTimeMs g <= 9223372036854 ->
   GetHeaderWaitTime opts = getHeaderWaitTimeMs g * time.Millisecond /\
   time.Milliseconds (GetHeaderWaitTime opts) = getHeaderWaitTimeMs g) /\
  (forall env a,
     g = init env a ->
     arg_getheader_wait_ms a = None \/ arg_getheader_wait_ms a = Some 500 ->
     GetHeaderWaitTime opts = 500 * time.Millisecond).
Proof.
  intros Hin.
  destruct (NewRelayAPI_opts w g opts Hin) as (v & b & _ & ->).
  cbn [GetHeaderWaitTime theOpts].
  split; [ reflexivity | split ].
  - intros Hn. rewrite (mul_Millisecond_exact _ Hn).
    split; [ reflexivity | apply Milliseconds_mul ].
  - intros env a -> Harg.
    assert (E : getHeaderWaitTimeMs (init env a) = 500).
    { simpl. destruct Harg as [-> | ->]; reflexivity. }
    rewrite E. reflexivity.
Qed.

(** Witness for C7: a healthy mainnet start-up with the default wait. *)
Lemma wait_time_is_int64_milliseconds_witness :
  GetHeaderWaitTime
    (theOpts (init Sample.emptyEnv (withSecretKey Sample.validKey Sample.mainnetArgs))
       "0x00000000" Sample.validKeyBytes)
  = 500 * time.Millisecond.
Proof.
  refine (proj2 (proj2 (wait_time_is_int64_milliseconds (Sample.healthy None)
                          (init Sample.emptyEnv
                             (withSecretKey Sample.validKey Sample.mainnetArgs))
                          (theOpts
                             (init Sample.emptyEnv
                                (withSecretKey Sample.validKey Sample.mainnetArgs))
                             "0x00000000" Sample.validKeyBytes)
                          _))
            Sample.emptyEnv (withSecretKey Sample.validKey Sample.mainnetArgs)
            eq_refl (or_introl eq_refl)).
  vm_compute. tauto.
Defined.

(** ** More than one source of the genesis fork version *)

Lemma Execute_Started (w : World) (env : Env) (a : CmdLine) :
  Execute w env a <> Rejected ->
  ParseFlags a = true /\ ValidateFlagGroups a = true /\
  Execute w env a = Started (Run w (init env a)).
Proof.
  unfold Execute.
  destruct (ParseFlags a), (ValidateFlagGroups a); simpl; intros H;
    try (now elim H); repeat split.
Qed.

(** With at most one flag of the group on the command line, two sources can
    only be active when the override comes from the environment. *)
Lemma two_sources_from_environment (env : Env) (a : CmdLine) :
  ValidateFlagGroups a = true ->
  (1 < activeSources (init env a))%nat ->
  arg_genesis_fork_version a = None /\
  defaultGenesisForkVersion env <> "" /\
  namedNetwork (init env a) = true.
Proof.
  unfold ValidateFlagGroups, mutuallyExclusiveSet, activeSources, namedNetwork,
    countTrue.
  cbn [init useCustomGenesisForkVersion useGenesisForkVersionMainnet
         useGenesisForkVersionKiln useGenesisForkVersionRopsten
         useGenesisForkVersionSepolia].
  destruct (arg_mainnet a) as [[ | ] | ], (arg_kiln a) as [[ | ] | ],
    (arg_ropsten a) as [[ | ] | ], (arg_sepolia a) as [[ | ] | ],
    (arg_genesis_fork_version a) as [s | ];
    cbn [flagValue Changed filter length Nat.leb];
    intros HV; try discriminate HV;
    destruct (_ =? "")%string eqn:E; cbn [negb filter length orb];
    intros HA; try lia;
    (split; [ reflexivity | split; [ | reflexivity ] ]);
    intros C; rewrite C in E; discriminate E.
Qed.

(** The claim C1 refuted: with [GENESIS_FORK_VERSION] set and [--mainnet] on
    the command line two sources are active after resolution, and start-up
    goes on to query the beacon node and to dial Redis. *)
Lemma override_with_mainnet_starts_up :
  (1 < activeSources (init Sample.envOverride Sample.mainnetArgs))%nat /\
  ~ failsBeforeIO (Execute (Sample.healthy None) Sample.envOverride Sample.mainnetArgs).
Proof.
  split; [ vm_compute; lia | ].
  intros [_ H]. vm_compute in H. discriminate H.
Qed.

(** C1, amended: a command line on which more than one of the flags
    [mainnet], [kiln], [ropsten], [sepolia], [genesis-fork-version] occurs is
    refused before [Run], hence before any I/O.  When the command line is
    accepted and more than one source is nevertheless active after
    resolution, the override comes from [GENESIS_FORK_VERSION] next to a
    named-network flag; start-up does not stop there: the override is taken
    as the genesis fork version and, once logging is set up, the beacon
    node's sync status is queried. *)
Theorem several_identity_sources (w : World) (env : Env) (a : CmdLine) :
  ((1 < mutuallyExclusiveSet a)%nat -> Execute w env a = Rejected) /\
  (Execute w env a <> Rejected ->
   (1 < activeSources (init env a))%nat ->
   arg_genesis_fork_version a = None /\
   Getenv env "GENESIS_FORK_VERSION" <> "" /\
   namedNetwork (init env a) = true /\
   setGenesisForkVersion w (init env a)
   = ([], Returned (Getenv env "GENESIS_FORK_VERSION")) /\
   (LogSetup_returns w (logJSON (init env a)) (logLevel (init env a)) = true ->
    In (SyncStatusCall (theBeaconClient (init env a))) (trace (Run w (init env a))) /\
    ~ failsBeforeIO (Execute w env a))).
Proof.
  split.
  - intros H. unfold Execute, ValidateFlagGroups.
    destruct (ParseFlags a); [ | reflexivity ].
    destruct (Nat.leb_spec (mutuallyExclusiveSet a) 1); [ lia | reflexivity ].
  - intros Hacc Hact.
    destruct (Execute_Started w env a Hacc) as (_ & HV & HE).
    destruct (two_sources_from_environment env a HV Hact) as (Harg & Henv & Hnamed).
    unfold defaultGenesisForkVersion in Henv.
    assert (Hc : useCustomGenesisForkVersion (init env a)
                 = Getenv env "GENESIS_FORK_VERSION").
    { simpl. now rewrite Harg. }
    assert (Hv : setGenesisForkVersion w (init env a)
                 = ([], Returned (Getenv env "GENESIS_FORK_VERSION"))).
    { rewrite <- Hc. apply setGenesisForkVersion_custom. now rewrite Hc. }
    repeat split; try assumption.
    + eapply before_In_r. apply identity_logged_then_beacon. split; eassumption.
    + rewrite HE. intros [_ Hlog].
      refine (onlyLogging_not_In _ (SyncStatusCall (theBeaconClient (init env a)))
                _ eq_refl Hlog).
      eapply before_In_r. apply identity_logged_then_beacon. split; eassumption.
Qed.

(** Witness for C1: two flags of the group are refused; the environment
    override next to [--mainnet] is not. *)
Lemma several_identity_sources_witness :
  Execute (Sample.healthy None) Sample.emptyEnv (withKiln Sample.mainnetArgs) = Rejected /\
  setGenesisForkVersion (Sample.healthy None)
    (init Sample.envOverride Sample.mainnetArgs)
  = ([], Returned "0x12345678").
Proof.
  split.
  - refine (proj1 (several_identity_sources (Sample.healthy None) Sample.emptyEnv
                     (withKiln Sample.mainnetArgs)) _).
    vm_compute. lia.
  - refine (proj1 (proj2 (proj2 (proj2
             (proj2 (several_identity_sources (Sample.healthy None)
                       Sample.envOverride Sample.mainnetArgs) _ _))))).
    + vm_compute. discriminate.
    + vm_compute. lia.
Defined.

(** * Further properties of the command *)

(** ** Redis and the service constructor *)

(** X1: in a run where dialling Redis fails, the address dialled is the
    [redisURI] variable, the failure is followed at once by the fatal entry
    "Failed to connect to Redis at <address>" carrying the error, and the
    process exits.  Redis was dialled once, after the beacon node's sync
    status had come back without error; no datastore is set up, the key is
    not decoded and the service is not constructed. *)
Theorem redis_error_aborts_before_key
    (w : World) (g : Flags) (uri : string) (e : error) :
  In (NewRedisCacheCall uri) (trace (Run w g)) ->
  NewRedisCache_err w uri = Some e ->
  uri = redisURI g /\
  fatal (Run w g) /\
  endsWith (Run w g)
    [NewRedisCacheCall uri;
     LogLine FatalLevel ("Failed to connect to Redis at " ++ uri) (Some e)] /\
  calls isNewRedisCache (trace (Run w g)) = 1%nat /\
  SyncStatus_err w (theBeaconClient g) = None /\
  before (SyncStatusCall (theBeaconClient g)) (NewRedisCacheCall uri) (trace (Run w g)) /\
  calls isNewProdProposerDatastore (trace (Run w g)) = 0%nat /\
  calls isDecode (trace (Run w g)) = 0%nat /\
  calls isNewRelayAPI (trace (Run w g)) = 0%nat.
Proof.
  intros Hin Herr.
  by_shape w g; in_trace; try congruence.
  assert (e0 = e) by congruence. subst e0.
  repeat split; try assumption; try find_before.
  now exists [LogSetupCall (logJSON g) (logLevel g);
              LogLine InfoLevel ("boost-relay " ++ Version w) None;
              LogLine InfoLevel ("Using genesis fork version: " ++ v) None;
              LogLine InfoLevel ("Using beacon endpoint: " ++ beaconNodeURI g) None;
              NewProdBeaconClientCall (beaconNodeURI g);
              SyncStatusCall (theBeaconClient g)].
Qed.

(** Witness for X1: mainnet, Redis down. *)
Lemma redis_error_aborts_before_key_witness :
  fatal (Run Scenario.redisDown (init Sample.emptyEnv Sample.mainnetArgs)) /\
  calls isDecode (trace (Run Scenario.redisDown (init Sample.emptyEnv Sample.mainnetArgs)))
  = 0%nat.
Proof.
  pose proof (redis_error_aborts_before_key Scenario.redisDown
                (init Sample.emptyEnv Sample.mainnetArgs)
                "localhost:6379" "dial tcp: connection refused") as H.
  assert (Hin : In (NewRedisCacheCall "localhost:6379")
                  (trace (Run Scenario.redisDown
                            (init Sample.emptyEnv Sample.mainnetArgs)))).
  { vm_compute. tauto. }
  specialize (H Hin eq_refl).
  split; [ exact (proj1 (proj2 H)) | ].
  exact (proj1 (proj2 (proj2 (proj2 (proj2 (proj2 (proj2 (proj2 H)))))))).
Defined.

(** X2: in a run where the service constructor returns an error, the call is
    followed at once by the fatal entry "failed to create service" carrying
    the error, and the process exits; the constructor was called once and
    the server is never started. *)
Theorem constructor_error_aborts_before_serving
    (w : World) (g : Flags) (opts : RelayAPIOpts) (e : error) :
  In (NewRelayAPICall opts) (trace (Run w g)) ->
  NewRelayAPI_err w opts = Some e ->
  fatal (Run w g) /\
  endsWith (Run w g)
    [NewRelayAPICall opts; LogLine FatalLevel "failed to create service" (Some e)] /\
  calls isNewRelayAPI (trace (Run w g)) = 1%nat /\
  calls isStartServer (trace (Run w g)) = 0%nat.
Proof.
  intros Hin Herr.
  by_shape w g; in_trace; try congruence.
  assert (e0 = e) by congruence. subst e0.
  repeat split.
  now exists (tKey w g v b).
Qed.

(** Witness for X2: a healthy start-up up to the constructor, which fails. *)
Lemma constructor_error_aborts_before_serving_witness :
  fatal (Run Scenario.constructorFails
           (init Sample.emptyEnv (withSecretKey Sample.validKey Sample.mainnetArgs))) /\
  calls isStartServer
    (trace (Run Scenario.constructorFails
              (init Sample.emptyEnv (withSecretKey Sample.validKey Sample.mainnetArgs))))
  = 0%nat.
Proof.
  pose proof (constructor_error_aborts_before_serving Scenario.constructorFails
                (init Sample.emptyEnv (withSecretKey Sample.validKey Sample.mainnetArgs))
                (theOpts
                   (init Sample.emptyEnv
                      (withSecretKey Sample.validKey Sample.mainnetArgs))
                   "0x00000000" Sample.validKeyBytes)
                "invalid options") as H.
  assert (Hin : In (NewRelayAPICall
                      (theOpts
                         (init Sample.emptyEnv
                            (withSecretKey Sample.validKey Sample.mainnetArgs))
                         "0x00000000" Sample.validKeyBytes))
                  (trace (Run Scenario.constructorFails
                            (init Sample.emptyEnv
                               (withSecretKey Sample.validKey Sample.mainnetArgs))))).
  { vm_compute. tauto. }
  specialize (H Hin eq_refl).
  split; [ exact (proj1 H) | exact (proj2 (proj2 (proj2 H))) ].
Defined.

(** ** The pipeline as a whole *)



(** X5: a run writes at most one fatal entry, and only as the last thing it
    does: whenever a fatal entry is in the trace the process has exited with
    status 1 and the entry ends the trace.  A process that exits does so with
    status 1, and, once log set-up has returned, not without a fatal entry;
    a run that stays in the serve call has written none. *)
Theorem fatal_entry_is_last_and_unique (w : World) (g : Flags) :
  (calls isFatalLine (trace (Run w g)) <= 1)%nat /\
  (forall msg err,
     In (LogLine FatalLevel msg err) (trace (Run w g)) ->
     fatal (Run w g) /\ endsWith (Run w g) [LogLine FatalLevel msg err]) /\
  (forall c, status (Run w g) = Exited c -> c = 1) /\
  (fatal (Run w g) ->
   LogSetup_returns w (logJSON g) (logLevel g) = true ->
   calls isFatalLine (trace (Run w g)) = 1%nat) /\
  (status (Run w g) = Blocked -> calls isFatalLine (trace (Run w g)) = 0%nat).
Proof.
  split; [ by_shape w g; lia | ].
  split.
  { intros msg err Hin.
    by_shape w g; in_trace; (split; [ reflexivity | ]).
    - now exists (tBanner w g).
    - now exists (tBeacon w g v).
    - now exists (tRedis w g v).
    - now exists (tDecode w g v).
    - now exists (tKey w g v b).
    - now exists (tConstruct w g v b).
    - now exists (tServe w g v b). }
  split; [ intros c; by_shape w g; congruence | ].
  split; by_shape w g; intros; try reflexivity; try congruence;
    match goal with H : identityResolved _ _ _ |- _ => destruct H end; congruence.
Qed.

(** Witness for X5: with the beacon node syncing, the fatal entry ends the
    run. *)
Lemma fatal_entry_is_last_and_unique_witness :
  fatal (Run Sample.syncing (init Sample.emptyEnv Sample.mainnetArgs)) /\
  endsWith (Run Sample.syncing (init Sample.emptyEnv Sample.mainnetArgs))
    [LogLine FatalLevel "Beacon node is syncing" (Some "beacon node is syncing")].
Proof.
  refine (proj1 (proj2 (fatal_entry_is_last_and_unique Sample.syncing
                          (init Sample.emptyEnv Sample.mainnetArgs)))
            "Beacon node is syncing" (Some "beacon node is syncing") _).
  vm_compute. tauto.
Defined.

(** ** Which genesis fork version *)

(** X6: with no custom override, the named networks are tried in the order
    mainnet, kiln, ropsten, sepolia, and the first one switched on gives the
    genesis fork version; the ones after it are not looked at.  That value is
    the one in the options of every call to the service constructor. *)
Theorem named_networks_in_declared_order (w : World) (g : Flags) :
  useCustomGenesisForkVersion g = "" ->
  namedNetwork g = true ->
  setGenesisForkVersion w g
  = ([], Returned (if useGenesisForkVersionMainnet g then GenesisForkVersionMainnet w
                   else if useGenesisForkVersionKiln g then GenesisForkVersionKiln w
                   else if useGenesisForkVersionRopsten g then GenesisForkVersionRopsten w
                   else GenesisForkVersionSepolia w)) /\
  (forall opts,
     In (NewRelayAPICall opts) (trace (Run w g)) ->
     GenesisForkVersionHex opts
     = (if useGenesisForkVersionMainnet g then GenesisForkVersionMainnet w
        else if useGenesisForkVersionKiln g then GenesisForkVersionKiln w
        else if useGenesisForkVersionRopsten g then GenesisForkVersionRopsten w
        else GenesisForkVersionSepolia w)).
Proof.
  intros Hc Hn.
  assert (Hv : setGenesisForkVersion w g
               = ([], Returned
                        (if useGenesisForkVersionMainnet g then GenesisForkVersionMainnet w
                         else if useGenesisForkVersionKiln g then GenesisForkVersionKiln w
                         else if useGenesisForkVersionRopsten g
                              then GenesisForkVersionRopsten w
                              else GenesisForkVersionSepolia w))).
  { unfold setGenesisForkVersion, namedNetwork in *. rewrite Hc.
    destruct (useGenesisForkVersionMainnet g), (useGenesisForkVersionKiln g),
      (useGenesisForkVersionRopsten g), (useGenesisForkVersionSepolia g);
      try reflexivity; discriminate Hn. }
  split; [ exact Hv | ].
  intros opts Hin.
  destruct (NewRelayAPI_opts w g opts Hin) as (v & b & Hv' & ->).
  cbn [GenesisForkVersionHex theOpts]. congruence.
Qed.

(** Witness for X6: mainnet and kiln both switched on give mainnet. *)
Lemma named_networks_in_declared_order_witness :
  setGenesisForkVersion (Sample.healthy None) Scenario.mainnetAndKiln
  = ([], Returned "0x00000000").
Proof.
  exact (proj1 (named_networks_in_declared_order (Sample.healthy None)
                  Scenario.mainnetAndKiln eq_refl eq_refl)).
Defined.

(** What the mutual-exclusion check leaves of the sources. *)
Lemma validated_sources (env : Env) (a : CmdLine) :
  ValidateFlagGroups a = true ->
  (namedSources (init env a) <= 1)%nat /\
  (arg_genesis_fork_version a <> None -> namedSources (init env a) = 0%nat) /\
  (activeSources (init env a) <= 2)%nat /\
  (Getenv env "GENESIS_FORK_VERSION" = "" -> (activeSources (init env a) <= 1)%nat).
Proof.
  unfold ValidateFlagGroups, mutuallyExclusiveSet, activeSources, namedSources,
    countTrue, defaultGenesisForkVersion.
  cbn [init useCustomGenesisForkVersion useGenesisForkVersionMainnet
         useGenesisForkVersionKiln useGenesisForkVersionRopsten
         useGenesisForkVersionSepolia].
  unfold defaultGenesisForkVersion.
  destruct (arg_mainnet a) as [[ | ] | ], (arg_kiln a) as [[ | ] | ],
    (arg_ropsten a) as [[ | ] | ], (arg_sepolia a) as [[ | ] | ],
    (arg_genesis_fork_version a) as [s | ];
    cbn [flagValue Changed filter length Nat.leb];
    intros HV; try discriminate HV;
    (split; [ lia | split; [ intros N; try reflexivity; now elim N | ] ]);
    (split; [ destruct (negb _); cbn [filter length]; lia
            | intros E; try rewrite E; cbn [String.eqb negb filter length];
              try destruct (negb _); cbn [filter length]; lia ]).
Qed.

(** X7: on a command line that passes the mutual-exclusion check at most
    one named network is switched on, and none when the custom override is
    given with its flag; so at most two sources are active, and at most one
    when [GENESIS_FORK_VERSION] is unset or empty. *)
Theorem accepted_command_line_sources (env : Env) (a : CmdLine) :
  ValidateFlagGroups a = true ->
  (namedSources (init env a) <= 1)%nat /\
  (arg_genesis_fork_version a <> None -> namedSources (init env a) = 0%nat) /\
  (activeSources (init env a) <= 2)%nat /\
  (Getenv env "GENESIS_FORK_VERSION" = "" -> (activeSources (init env a) <= 1)%nat).
Proof. exact (validated_sources env a). Qed.

(** Witness for X7: [--kiln] alone. *)
Lemma accepted_command_line_sources_witness :
  (namedSources (init Sample.envOverride (withKiln Sample.noArgs)) <= 1)%nat.
Proof.
  exact (proj1 (accepted_command_line_sources Sample.envOverride
                  (withKiln Sample.noArgs) eq_refl)).
Defined.

(** A run without any source stops before it touches a collaborator. *)
Lemma no_source_only_logging (w : World) (g : Flags) :
  activeSources g = 0%nat ->
  fatal (Run w g) /\ onlyLogging (trace (Run w g)) = true.
Proof.
  intros H0.
  split; by_shape w g; try reflexivity;
    match goal with H : identityResolved _ _ _ |- _ =>
      elim (identityResolved_active _ _ _ H H0) end.
Qed.

(** X8: an empty value given with the [genesis-fork-version] flag hides
    [GENESIS_FORK_VERSION]: the override is empty whatever the environment
    holds, and since the flag excludes the named networks on the command
    line, no source is left.  Start-up is refused or ends through [Fatal]
    before any collaborator is touched. *)
Theorem empty_override_flag_hides_environment (w : World) (env : Env) (a : CmdLine) :
  arg_genesis_fork_version a = Some "" ->
  useCustomGenesisForkVersion (init env a) = "" /\
  (ValidateFlagGroups a = true -> activeSources (init env a) = 0%nat) /\
  failsBeforeIO (Execute w env a).
Proof.
  intros Harg.
  assert (Hc : useCustomGenesisForkVersion (init env a) = "")
    by (simpl; now rewrite Harg).
  assert (H0 : ValidateFlagGroups a = true -> activeSources (init env a) = 0%nat).
  { intros HV.
    destruct (validated_sources env a HV) as (_ & Hn & _).
    assert (N : namedSources (init env a) = 0%nat) by (apply Hn; congruence).
    revert N. unfold activeSources, namedSources, countTrue. rewrite Hc.
    cbn [String.eqb negb filter]. exact (fun N => N). }
  split; [ exact Hc | split; [ exact H0 | ] ].
  unfold Execute.
  destruct (ParseFlags a); [ | exact I ].
  destruct (ValidateFlagGroups a); [ | exact I ].
  cbn [negb failsBeforeIO]. apply no_source_only_logging. now apply H0.
Qed.

(** Witness for X8: the empty flag next to a set [GENESIS_FORK_VERSION]. *)
Lemma empty_override_flag_hides_environment_witness :
  failsBeforeIO (Execute (Sample.healthy None) Sample.envOverride
                   (withGenesisForkVersion "" Sample.noArgs)).
Proof.
  exact (proj2 (proj2 (empty_override_flag_hides_environment (Sample.healthy None)
                         Sample.envOverride
                         (withGenesisForkVersion "" Sample.noArgs) eq_refl))).
Defined.

(** ** Logging set-up and endpoints *)

(** Log set-up is the first thing every run does, with the [json] and
    [loglevel] variables. *)
Lemma LogSetup_first (w : World) (g : Flags) :
  exists t, trace (Run w g) = LogSetupCall (logJSON g) (logLevel g) :: t.
Proof. by_shape w g; eexists; reflexivity. Qed.

(** X9: when the [json] flag does not occur, JSON logging is switched on
    exactly when [LOG_JSON] is set to a non-empty string, whatever the string
    says; a variable set to the empty string counts as unset.  The value
    reaches log set-up, which is the first call of the run. *)
Theorem log_json_follows_environment (w : World) (env : Env) (a : CmdLine) :
  arg_json a = None ->
  (logJSON (init env a) = true <-> exists v, env "LOG_JSON" = Some v /\ v <> "") /\
  exists t,
    trace (Run w (init env a))
    = LogSetupCall (negb (Getenv env "LOG_JSON" =? "")%string) (logLevel (init env a)) :: t.
Proof.
  intros Harg.
  assert (E : logJSON (init env a) = negb (Getenv env "LOG_JSON" =? "")%string).
  { cbn [init logJSON]. now rewrite Harg. }
  split.
  - rewrite E. unfold Getenv. destruct (env "LOG_JSON") as [v | ].
    + destruct (String.eqb_spec v "") as [-> | N]; cbn [negb]; split.
      * discriminate.
      * intros (v & Hv & N). injection Hv as <-. now elim N.
      * intros _. now exists v.
      * reflexivity.
    + cbn [String.eqb negb]. split; [ discriminate | intros (v & Hv & _); discriminate Hv ].
  - rewrite <- E. apply LogSetup_first.
Qed.

(** Witness for X9: [LOG_JSON=false] switches JSON logging on. *)
Lemma log_json_follows_environment_witness :
  logJSON (init (Scenario.envLogJSON "false") Sample.mainnetArgs) = true.
Proof.
  refine (proj2 (proj1 (log_json_follows_environment (Sample.healthy None)
                          (Scenario.envLogJSON "false") Sample.mainnetArgs eq_refl))
            (ex_intro _ "false" (conj eq_refl _))).
  discriminate.
Defined.

(** X10: endpoints given with the [beacon-uri] and [redis-uri] flags are the
    only ones a run turns to, whatever [BEACON_URI] and [REDIS_URI] hold:
    the beacon client is created for and queried at the flag's address,
    Redis is dialled at the flag's address, and the options of the service
    constructor carry that client and that connection. *)
Theorem flag_endpoints_are_the_ones_contacted
    (w : World) (env : Env) (a : CmdLine) (u r : string) :
  arg_beacon_uri a = Some u ->
  arg_redis_uri a = Some r ->
  (forall uri, In (NewProdBeaconClientCall uri) (trace (Run w (init env a))) -> uri = u) /\
  (forall c, In (SyncStatusCall c) (trace (Run w (init env a))) -> bc_uri c = u) /\
  (forall uri, In (NewRedisCacheCall uri) (trace (Run w (init env a))) -> uri = r) /\
  (forall opts,
     In (NewRelayAPICall opts) (trace (Run w (init env a))) ->
     bc_uri (BeaconClient opts) = u /\ redis_uri (ds_redis (Datastore opts)) = r).
Proof.
  intros Hu Hr.
  assert (Eu : beaconNodeURI (init env a) = u) by (cbn [init beaconNodeURI]; now rewrite Hu).
  assert (Er : redisURI (init env a) = r) by (cbn [init redisURI]; now rewrite Hr).
  revert Eu Er. generalize (init env a) as g. intros g Eu Er.
  repeat split.
  - intros uri Hin. by_shape w g; in_trace; first [ assumption | reflexivity ].
  - intros c Hin. by_shape w g; in_trace; first [ assumption | reflexivity ].
  - intros uri Hin. by_shape w g; in_trace; first [ assumption | reflexivity ].
  - destruct (NewRelayAPI_opts w g opts H) as (v & b & _ & ->). exact Eu.
  - destruct (NewRelayAPI_opts w g opts H) as (v & b & _ & ->). exact Er.
Qed.

(** Witness for X10: a complete command line in a healthy world. *)
Lemma flag_endpoints_are_the_ones_contacted_witness :
  bc_uri (BeaconClient
            (theOpts (init Sample.emptyEnv Scenario.fullArgs) "0x00000000"
               Sample.validKeyBytes))
  = "http://beacon.internal:3500".
Proof.
  refine (proj1 (proj2 (proj2 (proj2
            (flag_endpoints_are_the_ones_contacted (Sample.healthy None)
               Sample.emptyEnv Scenario.fullArgs
               "http://beacon.internal:3500" "redis.internal:6379"
               eq_refl eq_refl)))
            (theOpts (init Sample.emptyEnv Scenario.fullArgs) "0x00000000"
               Sample.validKeyBytes) _)).
  vm_compute. tauto.
Defined.

(** ** The options of the service *)

(** X11: the options a run hands to the service constructor are made of what
    the earlier stages produced and checked: the listen address and the
    pprof switch are the flags' values; the beacon client is the one whose
    sync status was queried, without error, earlier in the run; the
    datastore sits on the Redis connection opened, without error, earlier in
    the run; the key consists of the bytes hexutil decoded from the
    secret-key string and BLS accepted; the genesis fork version is the one
    the resolution block yielded. *)
Theorem options_are_built_from_checked_parts
    (w : World) (g : Flags) (opts : RelayAPIOpts) :
  In (NewRelayAPICall opts) (trace (Run w g)) ->
  ListenAddr opts = listenAddr g /\
  PprofAPI opts = apiPprof g /\
  Log opts = logrus.WithField "module" "cmd/api" /\
  SyncStatus_err w (BeaconClient opts) = None /\
  before (SyncStatusCall (BeaconClient opts)) (NewRelayAPICall opts) (trace (Run w g)) /\
  NewRedisCache_err w (redis_uri (ds_redis (Datastore opts))) = None /\
  before (NewRedisCacheCall (redis_uri (ds_redis (Datastore opts))))
    (NewProdProposerDatastoreCall (ds_redis (Datastore opts))) (trace (Run w g)) /\
  before (NewProdProposerDatastoreCall (ds_redis (Datastore opts)))
    (NewRelayAPICall opts) (trace (Run w g)) /\
  hexutil.Decode (secretKey g) = Ok (sk_bytes (SecretKey opts)) /\
  SecretKeyFromBytes_err w (sk_bytes (SecretKey opts)) = None /\
  before (SecretKeyFromBytesCall (sk_bytes (SecretKey opts)))
    (NewRelayAPICall opts) (trace (Run w g)) /\
  setGenesisForkVersion w g = ([], Returned (GenesisForkVersionHex opts)).
Proof.
  intros Hin.
  by_shape w g; in_trace; destruct H as [HL Hv];
    repeat split; try assumption; find_before.
Qed.

(** Witness for X11: a healthy mainnet start-up. *)
Lemma options_are_built_from_checked_parts_witness :
  hexutil.Decode
    (secretKey (init Sample.emptyEnv (withSecretKey Sample.validKey Sample.mainnetArgs)))
  = Ok Sample.validKeyBytes.
Proof.
  refine (proj1 (proj2 (proj2 (proj2 (proj2 (proj2 (proj2 (proj2 (proj2
            (options_are_built_from_checked_parts (Sample.healthy None)
               (init Sample.emptyEnv (withSecretKey Sample.validKey Sample.mainnetArgs))
               (theOpts
                  (init Sample.emptyEnv
                     (withSecretKey Sample.validKey Sample.mainnetArgs))
                  "0x00000000" Sample.validKeyBytes) _)))))))))).
  vm_compute. tauto.
Defined.

(** ** The key bytes *)

Lemma fromHexChar_range (c : ascii) (v : byte) :
  hexutil.fromHexChar c = Some v -> 0 <= v < 16.
Proof.
  unfold hexutil.fromHexChar. cbv zeta.
  set (n := Z.of_nat (nat_of_ascii c)).
  destruct (Z.leb_spec 48 n), (Z.leb_spec n 57); cbn [andb];
    try (intros E; injection E as <-; lia);
    destruct (Z.leb_spec 97 n), (Z.leb_spec n 102); cbn [andb];
    try (intros E; injection E as <-; lia);
    destruct (Z.leb_spec 65 n), (Z.leb_spec n 70); cbn [andb];
    try (intros E; injection E as <-; lia); discriminate.
Qed.

Lemma lt_pow2_log2 (x n : Z) : 0 < n -> 0 <= x -> (x < 2 ^ n <-> Z.log2 x < n).
Proof.
  intros Hn Hx. destruct (Z.eq_dec x 0) as [-> | N].
  - cbn [Z.log2]. split; intros _; [ lia | apply Z.pow_pos_nonneg; lia ].
  - apply Z.log2_lt_pow2. lia.
Qed.

(** Two hexadecimal digits make one byte. *)
Lemma two_digits_make_a_byte (a b : Z) :
  0 <= a < 16 -> 0 <= b < 16 -> isByte (Z.lor (Z.shiftl a 4) b).
Proof.
  intros Ha Hb. unfold isByte.
  assert (Hs : 0 <= Z.shiftl a 4 < 2 ^ 8).
  { rewrite Z.shiftl_mul_pow2 by lia. change (2 ^ 4) with 16. change (2 ^ 8) with 256. lia. }
  assert (Hl : 0 <= Z.lor (Z.shiftl a 4) b) by (apply Z.lor_nonneg; lia).
  split; [ exact Hl | ].
  change 256 with (2 ^ 8).
  apply (lt_pow2_log2 _ 8); [ lia | exact Hl | ].
  rewrite Z.log2_lor by lia.
  apply Z.max_lub_lt.
  - apply (lt_pow2_log2 _ 8); lia.
  - apply (lt_pow2_log2 _ 8); [ lia | lia | change (2 ^ 8) with 256; lia ].
Qed.

(** Induction over a list two elements at a time. *)
Lemma list_pair_ind {A} (P : list A -> Prop) :
  P [] -> (forall x, P [x]) -> (forall x y l, P l -> P (x :: y :: l)) ->
  forall l, P l.
Proof.
  intros H0 H1 H2 l.
  enough (P l /\ forall x, P (x :: l)) by tauto.
  induction l as [ | y l [IH1 IH2]]; split; auto.
Qed.

(** What the decoding loop accepts: an even number of hexadecimal digits,
    turned into half as many bytes. *)
Lemma hexDecode_ok (cs : list ascii) (b : list byte) :
  hexutil.hexDecode cs = inl b ->
  length cs = (2 * length b)%nat /\
  Forall isByte b /\
  forallb isHexDigit cs = true.
Proof.
  revert b. induction cs as [ | x | x y l IH] using list_pair_ind; intros b.
  - cbn. intros H. injection H as <-. repeat split. constructor.
  - cbn. destruct (hexutil.fromHexChar x); discriminate.
  - cbn [hexutil.hexDecode]. unfold isHexDigit. cbn [forallb].
    destruct (hexutil.fromHexChar x) as [p | ] eqn:Hx; [ | discriminate ].
    destruct (hexutil.fromHexChar y) as [q | ] eqn:Hy; [ | discriminate ].
    destruct (hexutil.hexDecode l) as [bs | e]; [ | discriminate ].
    intros H. injection H as <-.
    destruct (IH bs eq_refl) as (Hlen & Hall & Hhex).
    repeat split.
    + cbn [length]. lia.
    + constructor; [ | exact Hall ].
      apply two_digits_make_a_byte; eapply fromHexChar_range; eassumption.
    + cbn [andb]. exact Hhex.
Qed.

Lemma length_list_ascii (s : string) :
  length (list_ascii_of_string s) = String.length s.
Proof. induction s as [ | c s IH]; cbn; congruence. Qed.

(** A string hexutil decodes starts with the prefix and goes on with two
    hexadecimal digits for each byte of the result. *)
Lemma Decode_ok (s : string) (b : list byte) :
  hexutil.Decode s = Ok b ->
  hexutil.has0xPrefix (list_ascii_of_string s) = true /\
  String.length s = (2 + 2 * length b)%nat /\
  Forall isByte b /\
  forallb isHexDigit (skipn 2 (list_ascii_of_string s)) = true.
Proof.
  unfold hexutil.Decode. rewrite <- length_list_ascii.
  destruct (list_ascii_of_string s) as [ | c0 [ | c1 cs]]; cbn [length Nat.eqb];
    try discriminate.
  destruct (hexutil.has0xPrefix (c0 :: c1 :: cs)); cbn [negb]; [ | discriminate ].
  cbn [skipn].
  destruct (hexutil.hexDecode cs) as [bs | e] eqn:E; [ | discriminate ].
  intros H. injection H as <-.
  destruct (hexDecode_ok cs bs E) as (Hlen & Hall & Hhex).
  repeat split; try assumption. cbn [length]. lia.
Qed.

(** X12: whatever a run hands to BLS are bytes, two hexadecimal digits of
    the secret-key string for each, after the [0x] (or [0X]) prefix: every
    value lies between 0 and 255 and the string is twice as long as the byte
    string, plus two.  A 32-byte key thus reaches BLS only from a string of
    66 characters. *)
Theorem key_bytes_come_from_hex_digits (w : World) (g : Flags) (b : list byte) :
  In (SecretKeyFromBytesCall b) (trace (Run w g)) ->
  hexutil.has0xPrefix (list_ascii_of_string (secretKey g)) = true /\
  forallb isHexDigit (skipn 2 (list_ascii_of_string (secretKey g))) = true /\
  String.length (secretKey g) = (2 + 2 * length b)%nat /\
  Forall isByte b /\
  (length b = 32%nat -> String.length (secretKey g) = 66%nat).
Proof.
  intros Hin.
  assert (HD : hexutil.Decode (secretKey g) = Ok b)
    by (by_shape w g; in_trace; assumption).
  destruct (Decode_ok _ _ HD) as (Hp & Hlen & Hall & Hhex).
  repeat split; try assumption. intros E. rewrite Hlen, E. reflexivity.
Qed.

(** Witness for X12: the 32-byte sample key. *)
Lemma key_bytes_come_from_hex_digits_witness :
  String.length
    (secretKey (init Sample.emptyEnv (withSecretKey Sample.validKey Sample.mainnetArgs)))
  = 66%nat.
Proof.
  refine (proj2 (proj2 (proj2 (proj2
            (key_bytes_come_from_hex_digits (Sample.healthy None)
               (init Sample.emptyEnv (withSecretKey Sample.validKey Sample.mainnetArgs))
               Sample.validKeyBytes _)))) eq_refl).
  vm_compute. tauto.
Defined.

(** ** The wait, exactly *)

Lemma int64_wrap_in_range (z : Z) : int64.in_range (int64.wrap z) = true.
Proof.
  unfold int64.in_range, int64.wrap, int64.min, int64.max.
  pose proof (Z.mod_pos_bound (z + 2 ^ 63) (2 ^ 64) ltac:(lia)) as B.
  apply andb_true_intro. split; apply Z.leb_le; lia.
Qed.

Lemma int64_wrap_congruent (z : Z) : (int64.wrap z - z) mod 2 ^ 64 = 0.
Proof.
  unfold int64.wrap. rewrite (Z.mod_eq (z + 2 ^ 63) (2 ^ 64)) by lia.
  replace (z + 2 ^ 63 - 2 ^ 64 * ((z + 2 ^ 63) / 2 ^ 64) - 2 ^ 63 - z)
    with (- ((z + 2 ^ 63) / 2 ^ 64) * 2 ^ 64) by ring.
  apply Z.mod_mul. lia.
Qed.

(** X13: the wait a run puts into the options is always a valid [int64]
    duration, congruent modulo 2^64 to the millisecond count times
    1000000; it equals that many milliseconds exactly when the count lies
    between -9223372036854 and 9223372036854. *)
Theorem wait_time_exact_iff_in_range (w : World) (g : Flags) (opts : RelayAPIOpts) :
  In (NewRelayAPICall opts) (trace (Run w g)) ->
  int64.in_range (GetHeaderWaitTime opts) = true /\
  (GetHeaderWaitTime opts - getHeaderWaitTimeMs g * 1000000) mod 2 ^ 64 = 0 /\
  (GetHeaderWaitTime opts = getHeaderWaitTimeMs g * time.Millisecond <->
   -9223372036854 <= getHeaderWaitTimeMs g <= 9223372036854).
Proof.
  intros Hin.
  destruct (NewRelayAPI_opts w g opts Hin) as (v & b & _ & ->).
  cbn [GetHeaderWaitTime theOpts]. unfold int64.mul. rewrite Millisecond_value.
  split; [ apply int64_wrap_in_range | ].
  split; [ apply int64_wrap_congruent | ].
  split.
  - intros E.
    pose proof (int64_wrap_in_range (getHeaderWaitTimeMs g * 1000000)) as R.
    rewrite E in R. unfold int64.in_range, int64.min, int64.max in R.
    apply andb_prop in R. destruct R as [R1 R2].
    apply Z.leb_le in R1, R2. lia.
  - intros R. apply int64_wrap_small. unfold int64.min, int64.max. lia.
Qed.

(** Witness for X13: the default wait in a healthy mainnet start-up. *)
Lemma wait_time_exact_iff_in_range_witness :
  int64.in_range
    (GetHeaderWaitTime
       (theOpts (init Sample.emptyEnv (withSecretKey Sample.validKey Sample.mainnetArgs))
          "0x00000000" Sample.validKeyBytes))
  = true.
Proof.
  refine (proj1 (wait_time_exact_iff_in_range (Sample.healthy None)
                   (init Sample.emptyEnv (withSecretKey Sample.validKey Sample.mainnetArgs))
                   (theOpts
                      (init Sample.emptyEnv
                         (withSecretKey Sample.validKey Sample.mainnetArgs))
                      "0x00000000" Sample.validKeyBytes) _)).
  vm_compute. tauto.
Defined.

(** ** Runs that stop before the key is loaded *)

Ltac other_shapes :=
  unpack_stages;
  repeat match goal with
  | H : identityResolved _ _ _ |- _ => destruct H as [? ?]
  end;
  try congruence;
  try match goal with
  | H : setGenesisForkVersion ?w ?g = ([], Returned ?v), H0 : activeSources ?g = 0%nat |- _ =>
      elim (setGenesisForkVersion_returns w g v H H0)
  end.

Lemma Run_stops_at_LogSetup (w : World) (g : Flags) :
  LogSetup_returns w (logJSON g) (logLevel g) = false ->
  Run w g = (tLogSetup g, Exited 1).
Proof.
  intros HL. destruct (Run_shape w g); other_shapes; reflexivity.
Qed.

Lemma Run_stops_at_identity (w : World) (g : Flags) :
  LogSetup_returns w (logJSON g) (logLevel g) = true ->
  activeSources g = 0%nat ->
  Run w g = ((tBanner w g ++ [LogLine FatalLevel msgNoGenesisForkVersion None])%list,
             Exited 1).
Proof.
  intros HL H0. destruct (Run_shape w g); other_shapes; reflexivity.
Qed.

Lemma Run_stops_at_beacon (w : World) (g : Flags) (v : string) (e : error) :
  identityResolved w g v ->
  SyncStatus_err w (theBeaconClient g) = Some e ->
  Run w g = ((tBeacon w g v ++ fatalLine "Beacon node is syncing" e)%list, Exited 1).
Proof.
  intros [HL Hv] HS. destruct (Run_shape w g); other_shapes.
Qed.

Lemma Run_stops_at_redis (w : World) (g : Flags) (v : string) (e : error) :
  beaconSynced w g v ->
  NewRedisCache_err w (redisURI g) = Some e ->
  Run w g = ((tRedis w g v ++
              fatalLine ("Failed to connect to Redis at " ++ redisURI g) e)%list,
             Exited 1).
Proof.
  intros [[HL Hv] HS] HR. destruct (Run_shape w g); other_shapes.
Qed.

Lemma agreeUpToRedis_setGenesisForkVersion (w : World) (g g' : Flags) :
  agreeUpToRedis g g' -> setGenesisForkVersion w g' = setGenesisForkVersion w g.
Proof.
  intros (_ & _ & Hc & Hm & Hk & Hr & Hs & _).
  unfold setGenesisForkVersion. now rewrite Hc, Hm, Hk, Hr, Hs.
Qed.

Lemma agreeUpToRedis_activeSources (g g' : Flags) :
  agreeUpToRedis g g' -> activeSources g' = activeSources g.
Proof.
  intros (_ & _ & Hc & Hm & Hk & Hr & Hs & _).
  unfold activeSources. now rewrite Hc, Hm, Hk, Hr, Hs.
Qed.

(** X14: a run that stops before it decodes the key does not depend on the
    secret key, the listen address, the pprof switch or the wait: with any
    other values for these four, and everything else the same, the run makes
    the same calls, writes the same log entries and ends the same way. *)
Theorem early_stop_ignores_later_flags (w : World) (g g' : Flags) :
  agreeUpToRedis g g' ->
  calls isDecode (trace (Run w g)) = 0%nat ->
  Run w g' = Run w g.
Proof.
  intros A Hcalls.
  pose proof (agreeUpToRedis_setGenesisForkVersion w g g' A) as Eset.
  pose proof (agreeUpToRedis_activeSources g g' A) as Eact.
  destruct A as (HJ & HLv & _ & _ & _ & _ & _ & HB & HR).
  assert (Ebc : theBeaconClient g' = theBeaconClient g)
    by (unfold theBeaconClient; now rewrite HB).
  destruct (Run_shape w g); unpack_stages;
    try (unfold_stages; cbn -[append] in Hcalls; discriminate Hcalls).
  - rewrite Run_stops_at_LogSetup by (now rewrite <- HJ, <- HLv).
    unfold tLogSetup. now rewrite HJ, HLv.
  - rewrite Run_stops_at_identity by (rewrite <- ?HJ, <- ?HLv, ?Eact; assumption).
    unfold tBanner, tLogSetup. now rewrite HJ, HLv.
  - destruct H as [HL Hv].
    rewrite (Run_stops_at_beacon w g' v e).
    + unfold tBeacon, tBanner, tLogSetup. now rewrite Ebc, HJ, HLv, HB.
    + split; [ now rewrite <- HJ, <- HLv | now rewrite Eset ].
    + now rewrite Ebc.
  - destruct H as [HL Hv].
    rewrite (Run_stops_at_redis w g' v e).
    + unfold tRedis, tBeacon, tBanner, tLogSetup. now rewrite Ebc, HJ, HLv, HB, HR.
    + split; [ split; [ now rewrite <- HJ, <- HLv | now rewrite Eset ] | now rewrite Ebc ].
    + now rewrite <- HR.
Qed.

(** Witness for X14: with the beacon node syncing, a run with a well-formed
    key and a run without any key are the same. *)
Lemma early_stop_ignores_later_flags_witness :
  Run Sample.syncing
    (init Sample.emptyEnv (withSecretKey Sample.validKey Sample.mainnetArgs))
  = Run Sample.syncing (init Sample.emptyEnv Sample.mainnetArgs).
Proof.
  refine (early_stop_ignores_later_flags Sample.syncing
            (init Sample.emptyEnv Sample.mainnetArgs)
            (init Sample.emptyEnv (withSecretKey Sample.validKey Sample.mainnetArgs))
            _ eq_refl).
  repeat split.
Defined.
